(** * Comment quality analyzer: a shallow embedding of [main.py]

    The development follows class [CommentQualityAnalyzer]: the constructor
    and its three detectors, [check_missing_comments],
    [enforce_comment_style_consistency] and [identify_outdated_comments],
    together with the pieces of the interpreter's library they call
    ([str] methods, [ast.walk], the two regular expressions). *)

From Stdlib Require Import ZArith Lia Bool Ascii String List DecimalString.
From stdpp Require Import base option list gmap strings.

Local Open Scope string_scope.
Local Open Scope list_scope.
Local Open Scope Z_scope.

(** ** Python strings

    A [str] is modelled as a [string] whose characters are the code points
    below 256. *)
Module PyStr.

Definition code (c : ascii) : N := N_of_ascii c.

(** [str.isspace] on one character, for code points below 256. *)
Definition isspace (c : ascii) : bool :=
  let n := code c in
  ((9 <=? n) && (n <=? 13) || (28 <=? n) && (n <=? 32)
   || (n =? 133) || (n =? 160))%N.

(** The class [\w] of [re] on [str] patterns: alphanumerics and the
    underscore, for code points below 256. *)
Definition isword (c : ascii) : bool :=
  let n := code c in
  ((48 <=? n) && (n <=? 57) || (65 <=? n) && (n <=? 90)
   || (97 <=? n) && (n <=? 122) || (n =? 95)
   || (n =? 170) || (n =? 178) || (n =? 179) || (n =? 181)
   || (n =? 185) || (n =? 186) || (188 <=? n) && (n <=? 190)
   || (192 <=? n) && (n <=? 214) || (216 <=? n) && (n <=? 246)
   || (248 <=? n))%N.

(** Truth value of a string: [bool(s)]. *)
Definition truthy (s : string) : bool :=
  match s with EmptyString => false | String _ _ => true end.

Fixpoint lstrip (s : string) : string :=
  match s with
  | EmptyString => EmptyString
  | String c s' => if isspace c then lstrip s' else s
  end.

Fixpoint rstrip (s : string) : string :=
  match s with
  | EmptyString => EmptyString
  | String c s' =>
      let r := rstrip s' in
      if isspace c && negb (truthy r) then EmptyString else String c r
  end.

(** [s.strip()] *)
Definition strip (s : string) : string := rstrip (lstrip s).

(** [s.startswith(p)] *)
Fixpoint startswith (s p : string) {struct p} : bool :=
  match p with
  | EmptyString => true
  | String b p' =>
      match s with
      | EmptyString => false
      | String a s' => if Ascii.eqb a b then startswith s' p' else false
      end
  end.

(** [sub in s] *)
Fixpoint contains (s sub : string) : bool :=
  startswith s sub
  || match s with
     | EmptyString => false
     | String _ s' => contains s' sub
     end.

(** [s.split(sep, 1)] for a one-character separator: the text before the
    first separator and the text after it, or the string alone. *)
Fixpoint split1 (sep : ascii) (s : string) : list string :=
  match s with
  | EmptyString => [EmptyString]
  | String c s' =>
      if Ascii.eqb c sep then [EmptyString; s']
      else match split1 sep s' with
           | hd :: tl => String c hd :: tl
           | [] => [String c EmptyString]
           end
  end.

Definition newline : ascii := ascii_of_nat 10.
Definition nl : string := String newline EmptyString.

(** The lines of a text file as iteration over the file object and
    [readlines] give them: each line keeps its newline, and a last line
    without one is kept when it is not empty. *)
Fixpoint lines_from (cur : string) (s : string) : list string :=
  match s with
  | EmptyString => if truthy cur then [cur] else []
  | String c s' =>
      if Ascii.eqb c newline
      then (cur +:+ nl) :: lines_from EmptyString s'
      else lines_from (cur +:+ String c EmptyString) s'
  end.

Definition readlines (text : string) : list string :=
  lines_from EmptyString text.

(** [re.findall(r'\b\w+\b', s)]: the maximal runs of word characters,
    from left to right. *)
Fixpoint words_from (cur : string) (s : string) : list string :=
  match s with
  | EmptyString => if truthy cur then [cur] else []
  | String c s' =>
      if isword c then words_from (cur +:+ String c EmptyString) s'
      else (if truthy cur then [cur] else []) ++ words_from EmptyString s'
  end.

Definition findall_words (s : string) : list string :=
  words_from EmptyString s.

(** [str(n)] for an [int]. *)
Definition str_of_int (n : Z) : string :=
  NilEmpty.string_of_int (Z.to_int n).

(** [len(s)] *)
Definition len (s : string) : Z := Z.of_nat (String.length s).

End PyStr.

Import PyStr.

(** ** Errors

    The exceptions the analyzer can raise, and results of fallible code. *)
Inductive exn : Type :=
| FileNotFoundError
| PermissionError
| SyntaxError
| IndexError
| TypeError
| RecursionError.

Inductive result (A : Type) : Type :=
| Ok (a : A)
| Raise (e : exn).
Arguments Ok {A} a.
Arguments Raise {A} e.

Definition bind {A B : Type} (r : result A) (k : A -> result B) : result B :=
  match r with
  | Ok a => k a
  | Raise e => Raise e
  end.

Notation "x <- r ;; k" := (bind r (fun x => k))
  (at level 100, r at next level, right associativity).

(** A [for] loop whose body updates an accumulator and may raise. *)
Fixpoint for_each {A S : Type} (body : A -> S -> result S) (xs : list A) (s : S)
  : result S :=
  match xs with
  | [] => Ok s
  | x :: xs' => s' <- body x s ;; for_each body xs' s'
  end.

(** [l[k]] on a Python list: negative indices count from the end. *)
Definition getitem {A : Type} (l : list A) (k : Z) : result A :=
  let n := Z.of_nat (length l) in
  let i := if k <? 0 then k + n else k in
  if (i <? 0) || (n <=? i) then Raise IndexError
  else match l !! Z.to_nat i with
       | Some a => Ok a
       | None => Raise IndexError
       end.

(** [enumerate(xs, start)] *)
Fixpoint enumerate {A : Type} (start : Z) (xs : list A) : list (Z * A) :=
  match xs with
  | [] => []
  | x :: xs' => (start, x) :: enumerate (start + 1) xs'
  end.

(** ** The file system

    What opening a path for reading in text mode gives. *)
Inductive file : Type :=
| Missing
| Unreadable
| Text (content : string).

Definition filesystem : Type := string -> file.

(** [open(path, 'r', encoding='utf-8')] followed by reading the file. *)
Definition open_read (fs : filesystem) (path : string) : result string :=
  match fs path with
  | Missing => Raise FileNotFoundError
  | Unreadable => Raise PermissionError
  | Text content => Ok content
  end.

(** ** Syntax trees

    The node classes the analyzer tells apart, with the fields it reads and
    the child nodes in field order; [Other] stands for every other class,
    whose fields the analyzer never reads. *)
Inductive constant : Type :=
| CStr (s : string)
| CBytes (s : string)
| CInt (n : Z)
| CBool (b : bool)
| CNone
| CEllipsis.

#[warnings="-register-all"] Inductive node : Type :=
| Module (body : list node) (type_ignores : list node)
| FunctionDef (lineno : Z) (name : string) (args : node) (body : list node)
    (decorator_list : list node) (returns : option node)
    (type_params : list node)
| AsyncFunctionDef (lineno : Z) (name : string) (args : node)
    (body : list node) (decorator_list : list node) (returns : option node)
    (type_params : list node)
| ClassDef (lineno : Z) (name : string) (bases : list node)
    (keywords : list node) (body : list node) (decorator_list : list node)
    (type_params : list node)
| If (lineno : Z) (test : node) (body : list node) (orelse : list node)
| Expr (value : node)
| Constant (value : constant)
| Other (cls : string) (children : list node).

(** [ast.iter_child_nodes]: the fields that are nodes or lists of nodes, in
    field order. *)
Definition iter_child_nodes (n : node) : list node :=
  match n with
  | Module body type_ignores => body ++ type_ignores
  | FunctionDef _ _ args body decorator_list returns type_params
  | AsyncFunctionDef _ _ args body decorator_list returns type_params =>
      args :: body ++ decorator_list ++ option_list returns ++ type_params
  | ClassDef _ _ bases keywords body decorator_list type_params =>
      bases ++ keywords ++ body ++ decorator_list ++ type_params
  | If _ test body orelse => test :: body ++ orelse
  | Expr value => [value]
  | Constant _ => []
  | Other _ children => children
  end.

(** Number of nodes of a tree. *)
Fixpoint node_size (n : node) : nat :=
  let fix sizes (l : list node) : nat :=
    match l with
    | [] => O
    | x :: l' => (node_size x + sizes l')%nat
    end in
  let size_opt (o : option node) : nat :=
    match o with
    | Some x => node_size x
    | None => O
    end in
  match n with
  | Module body type_ignores => S (sizes body + sizes type_ignores)
  | FunctionDef _ _ args body decorator_list returns type_params
  | AsyncFunctionDef _ _ args body decorator_list returns type_params =>
      S (node_size args + sizes body + sizes decorator_list
         + size_opt returns + sizes type_params)
  | ClassDef _ _ bases keywords body decorator_list type_params =>
      S (sizes bases + sizes keywords + sizes body + sizes decorator_list
         + sizes type_params)
  | If _ test body orelse => S (node_size test + sizes body + sizes orelse)
  | Expr value => S (node_size value)
  | Constant _ => 1%nat
  | Other _ children => S (sizes children)
  end.

Definition forest_size (q : list node) : nat :=
  fold_right (fun n acc => (node_size n + acc)%nat) O q.

(** [ast.walk]: a queue holds the nodes still to visit; the node at its
    front is yielded after its children are put at the back.  The loop runs
    until the queue is empty, which takes one turn for each node. *)
Fixpoint walk_loop (turns : nat) (todo : list node) : list node :=
  match turns with
  | O => []
  | S turns' =>
      match todo with
      | [] => []
      | n :: todo' => n :: walk_loop turns' (todo' ++ iter_child_nodes n)
      end
  end.

Definition walk (root : node) : list node :=
  walk_loop (node_size root) [root].

(** The nodes at nesting depth [d] below [n], from left to right. *)
Fixpoint level (d : nat) (n : node) : list node :=
  match d with
  | O => [n]
  | S d' => flat_map (level d') (iter_child_nodes n)
  end.

(** ** The analyzer object *)

(** A [float]: not a number, an infinity, or the number
    [mantissa * 2 ^ exponent]. *)
Inductive float_value : Type :=
| FNan
| FInf (negative : bool)
| FFinite (mantissa exponent : Z).

#[global] Instance float_value_eq_dec : EqDecision float_value.
Proof. solve_decision. Defined.

(** [n < x] for an [int] and a [float]: the comparison is exact. *)
Definition int_lt_float (n : Z) (x : float_value) : bool :=
  match x with
  | FNan => false
  | FInf negative => negb negative
  | FFinite m e => if 0 <=? e then n <? m * 2 ^ e else n * 2 ^ (- e) <? m
  end.

(** A value of the style guide dictionary, as [json.load] gives it: an
    integer, a string, a boolean, a float (with the text [str] gives for
    it), [None], a list or a dictionary.  The analyzer never reads what a
    list or a dictionary holds. *)
Inductive sg_value : Type :=
| SInt (n : Z)
| SStr (s : string)
| SBool (b : bool)
| SFloat (x : float_value) (text : string)
| SNone
| SList
| SDict.

(** A value that [<] compares with an [int]: what [n < v] gives for each
    [n], and the text [str(v)] gives.  For the other values [<] raises
    [TypeError]. *)
Definition number (v : sg_value) : option ((Z -> bool) * string) :=
  match v with
  | SInt m => Some (fun n => n <? m, str_of_int m)
  | SBool b =>
      Some (fun n => n <? (if b then 1 else 0), if b then "True" else "False")
  | SFloat x text => Some (fun n => int_lt_float n x, text)
  | _ => None
  end.

#[global] Instance sg_value_eq_dec : EqDecision sg_value.
Proof. solve_decision. Defined.

(** A finding: line number, category, message. *)
Definition issue : Type := Z * string * string.

Record analyzer : Type := mkAnalyzer {
  filename : string;
  style_guide : gmap string sg_value;
  source_code : string;
  tree : node
}.

(** [isinstance(n, ast.If)] *)
Definition is_If (n : node) : bool :=
  match n with
  | If _ _ _ _ => true
  | _ => false
  end.

(** [hasattr(node, 'body') and node.body]: the body of the classes whose
    body the analyzer reads, the empty list elsewhere; the docstring helper
    is called on definitions only. *)
Definition node_body (n : node) : list node :=
  match n with
  | Module body _ => body
  | FunctionDef _ _ _ body _ _ _ => body
  | AsyncFunctionDef _ _ _ body _ _ _ => body
  | ClassDef _ _ _ _ body _ _ => body
  | If _ _ body _ => body
  | _ => []
  end.

Definition _extract_docstring (n : node) : string :=
  match node_body n with
  | Expr (Constant (CStr s)) :: _ => s
  | _ => EmptyString
  end.

Definition complex_msg : string := "Missing comment for complex if statement".

Definition changed_lines_pattern : string := "result = val + 5".

(** [re.search(changed_lines_pattern, line)]: the pattern has no operator
    but the escaped plus sign, so it matches where its text occurs. *)
Definition search_changed (line : string) : bool :=
  contains line changed_lines_pattern.

Definition outdated_msg (var : string) : string :=
  "Possible outdated comment near changed line. Comment might be related to variable: "
  +:+ var.

Section Analyzer.

(** The interpreter's parser and its structural dump of a tree; the dump
    can raise, as it does with [RecursionError] on a deep expression. *)
Variable ast_parse : string -> option node.
Variable ast_dump : node -> result string.

Definition __init__ (fs : filesystem) (filename : string)
    (style_guide : option (gmap string sg_value)) : result analyzer :=
  let style_guide := default ∅ style_guide in
  source_code <- open_read fs filename ;;
  match ast_parse source_code with
  | Some tree => Ok (mkAnalyzer filename style_guide source_code tree)
  | None => Raise SyntaxError
  end.

(** The heuristic for complex logic on an [if] statement; the test is
    dumped only when the body has not settled the matter. *)
Definition complex_if (test : node) (body : list node) : result bool :=
  if (3 <? Z.of_nat (length body)) || existsb is_If body then Ok true
  else dump <- ast_dump test ;; Ok (100 <? len dump).

(** One turn of the loop of [check_missing_comments] on [node]. *)
Definition check_node (fs : filesystem) (self : analyzer) (n : node)
    (missing_comments : list issue) : result (list issue) :=
  match n with
  | FunctionDef lineno name _ _ _ _ _
  | AsyncFunctionDef lineno name _ _ _ _ _ =>
      let docstring := _extract_docstring n in
      if negb (truthy docstring)
      then Ok (missing_comments
                 ++ [(lineno, "function",
                      "Missing docstring for function: " +:+ name)])
      else Ok missing_comments
  | ClassDef lineno name _ _ _ _ _ =>
      let docstring := _extract_docstring n in
      if negb (truthy docstring)
      then Ok (missing_comments
                 ++ [(lineno, "class",
                      "Missing docstring for class: " +:+ name)])
      else Ok missing_comments
  | If lineno test body _ =>
      complex <- complex_if test body ;;
      if complex then
        if 1 <? lineno then
          text <- open_read fs (filename self) ;;
          let lines := readlines text in
          if 0 <=? lineno - 2 then
            prev <- getitem lines (lineno - 2) ;;
            let prev_line := strip prev in
            if negb (startswith prev_line "#")
            then Ok (missing_comments
                       ++ [(lineno, "complex logic", complex_msg)])
            else Ok missing_comments
          else Ok missing_comments
        else Ok (missing_comments ++ [(lineno, "complex logic", complex_msg)])
      else Ok missing_comments
  | _ => Ok missing_comments
  end.

Definition check_missing_comments (fs : filesystem) (self : analyzer)
  : result (list issue) :=
  for_each (check_node fs self) (walk (tree self)) [].

(** One turn of the loop of [enforce_comment_style_consistency] on line
    [i]. *)
Definition style_line (self : analyzer) (il : Z * string)
    (style_violations : list issue) : result (list issue) :=
  let '(i, line) := il in
  let line := rstrip line in
  if startswith (strip line) "#" then
    after <- getitem (split1 "#"%char line) 1 ;;
    let comment_text := strip after in
    style_violations <-
      match style_guide self !! "min_length" with
      | None => Ok style_violations
      | Some v =>
          match number v with
          | Some (below, text) =>
              if below (len comment_text)
              then Ok (style_violations
                         ++ [(i, "length",
                              "Comment is too short (min length: "
                              +:+ text +:+ ")")])
              else Ok style_violations
          | None => Raise TypeError
          end
      end ;;
    match style_guide self !! "required_prefix" with
    | None => Ok style_violations
    | Some (SStr p) =>
        if negb (startswith comment_text p)
        then Ok (style_violations
                   ++ [(i, "prefix",
                        "Comment does not start with required prefix: "
                        +:+ p)])
        else Ok style_violations
    | Some _ => Raise TypeError
    end
  else Ok style_violations.

Definition enforce_comment_style_consistency (fs : filesystem)
    (self : analyzer) : result (list issue) :=
  if bool_decide (style_guide self = ∅) then Ok []
  else
    text <- open_read fs (filename self) ;;
    for_each (style_line self) (enumerate 1 (readlines text)) [].

(** The innermost loop of [identify_outdated_comments]: the first word of
    the changed line that occurs in the comment flags it. *)
Fixpoint flag_comment (vars : list string) (check_line : string)
    (check_line_num : Z) (outdated_comments : list issue) : list issue :=
  match vars with
  | [] => outdated_comments
  | var :: vars' =>
      if contains check_line var && (2 <? len var)
      then outdated_comments
             ++ [(check_line_num + 1, "outdated", outdated_msg var)]
      else flag_comment vars' check_line check_line_num outdated_comments
  end.

(** One turn of the loop over the window around changed line [i]. *)
Definition check_offset (lines : list string) (i : Z) (line : string)
    (offset : Z) (outdated_comments : list issue) : result (list issue) :=
  let check_line_num := i + offset in
  if (0 <=? check_line_num) && (check_line_num <? Z.of_nat (length lines))
  then
    l <- getitem lines check_line_num ;;
    let check_line := strip l in
    if startswith check_line "#"
    then Ok (flag_comment (findall_words line) check_line check_line_num
               outdated_comments)
    else Ok outdated_comments
  else Ok outdated_comments.

(** [range(-3, 4)] *)
Definition window : list Z := [-3; -2; -1; 0; 1; 2; 3].

(** One turn of the outer loop of [identify_outdated_comments]. *)
Definition outdated_line (lines : list string) (il : Z * string)
    (outdated_comments : list issue) : result (list issue) :=
  let '(i, line) := il in
  if search_changed line
  then for_each (check_offset lines i line) window outdated_comments
  else Ok outdated_comments.

Definition identify_outdated_comments (fs : filesystem) (self : analyzer)
  : result (list issue) :=
  text <- open_read fs (filename self) ;;
  let lines := readlines text in
  for_each (outdated_line lines) (enumerate 0 lines) [].

(** What [main] prints for one of the three lists. *)
Definition print_issues (title : string) (issues : list issue) : list string :=
  match issues with
  | [] => []
  | _ =>
      (nl +:+ title)
      :: map (fun '(line, kind, message) =>
                "  Line " +:+ str_of_int line +:+ ": " +:+ kind +:+ " - "
                +:+ message) issues
  end.

(** [main] once the style guide is loaded: the lines printed and the exit
    status. *)
Definition main (fs : filesystem) (filename : string)
    (style_guide : option (gmap string sg_value)) : list string * Z :=
  let run :=
    analyzer <- __init__ fs filename style_guide ;;
    missing_comments <- check_missing_comments fs analyzer ;;
    style_violations <- enforce_comment_style_consistency fs analyzer ;;
    outdated_comments <- identify_outdated_comments fs analyzer ;;
    Ok (print_issues "Missing Comments:" missing_comments
        ++ print_issues "Style Violations:" style_violations
        ++ print_issues "Possible Outdated Comments:" outdated_comments
        ++ match missing_comments, style_violations, outdated_comments with
           | [], [], [] => ["No issues found with code comments."]
           | _, _, _ => []
           end) in
  match run with
  | Ok out => (out, 0)
  | Raise _ => ([], 1)
  end.

End Analyzer.

(** ** The detectors as their description words them

    These definitions restate what each pass reports; the theorems below
    relate them to the loops above. *)

(** The characters of [s] all satisfy [p]. *)
Fixpoint all_chars (p : ascii -> bool) (s : string) : bool :=
  match s with
  | EmptyString => true
  | String c s' => p c && all_chars p s'
  end.

(** The text after the first occurrence of [sep], when there is one. *)
Fixpoint text_after (sep : ascii) (s : string) : option string :=
  match s with
  | EmptyString => None
  | String c s' => if Ascii.eqb c sep then Some s' else text_after sep s'
  end.

(** A physical line is a comment line when its trimmed text starts with the
    comment marker. *)
Definition is_comment (line : string) : bool := startswith (strip line) "#".

(** The body of a comment line: the text after the first marker, trimmed. *)
Definition comment_body (line : string) : string :=
  strip (default EmptyString (text_after "#"%char line)).

Definition length_issue (i m : Z) : issue :=
  (i, "length", "Comment is too short (min length: " +:+ str_of_int m +:+ ")").

Definition prefix_issue (i : Z) (p : string) : issue :=
  (i, "prefix", "Comment does not start with required prefix: " +:+ p).

(** The style issues of line [i]: zero, one or two. *)
Definition style_findings (sg : gmap string sg_value) (il : Z * string)
  : list issue :=
  let '(i, line) := il in
  if is_comment line then
    match sg !! "min_length" with
    | Some (SInt m) =>
        if len (comment_body line) <? m then [length_issue i m] else []
    | _ => []
    end
    ++ match sg !! "required_prefix" with
       | Some (SStr p) =>
           if startswith (comment_body line) p then [] else [prefix_issue i p]
       | _ => []
       end
  else [].

(** The style guide gives [min_length] an integer and [required_prefix] a
    string when it sets them. *)
Definition guide_typed (sg : gmap string sg_value) : bool :=
  match sg !! "min_length" with
  | Some (SInt _) | None => true
  | Some _ => false
  end
  && match sg !! "required_prefix" with
     | Some (SStr _) | None => true
     | Some _ => false
     end.


(** What one node adds to the list of missing comments. *)
Definition findings (ast_dump : node -> result string) (fs : filesystem)
    (self : analyzer) (n : node) : list issue :=
  match check_node ast_dump fs self n [] with
  | Ok new => new
  | Raise _ => []
  end.

Definition missing_issue (n : node) : list issue :=
  match n with
  | FunctionDef lineno name _ _ _ _ _
  | AsyncFunctionDef lineno name _ _ _ _ _ =>
      [(lineno, "function", "Missing docstring for function: " +:+ name)]
  | ClassDef lineno name _ _ _ _ _ =>
      [(lineno, "class", "Missing docstring for class: " +:+ name)]
  | _ => []
  end.


(** [isinstance(n, (ast.FunctionDef, ast.AsyncFunctionDef, ast.ClassDef))] *)
Definition is_definition (n : node) : bool :=
  match n with
  | FunctionDef _ _ _ _ _ _ _
  | AsyncFunctionDef _ _ _ _ _ _ _
  | ClassDef _ _ _ _ _ _ _ => true
  | _ => false
  end.

(** A word of the changed line flags a comment when it occurs in it and
    has more than two characters. *)
Definition flags (check_line var : string) : bool :=
  contains check_line var && (2 <? len var).

Definition outdated_issue (j : Z) (var : string) : issue :=
  (j + 1, "outdated", outdated_msg var).

(** What the line at index [j] gets from changed line [line]. *)
Definition window_findings (lines : list string) (line : string) (j : Z)
  : list issue :=
  if (0 <=? j) && (j <? Z.of_nat (length lines)) then
    match lines !! Z.to_nat j with
    | Some c =>
        if is_comment c
        then match find (flags (strip c)) (findall_words line) with
             | Some var => [outdated_issue j var]
             | None => []
             end
        else []
    | None => []
    end
  else [].

Definition changed_findings (lines : list string) (il : Z * string)
  : list issue :=
  let '(i, line) := il in
  if search_changed line
  then flat_map (fun offset => window_findings lines line (i + offset)) window
  else [].

(** The line numbers of a list of issues. *)
Definition issue_lines (l : list issue) : list Z := map (fun i => i.1.1) l.

(** The list is in ascending order. *)
Fixpoint ascending (l : list Z) : bool :=
  match l with
  | [] => true
  | x :: l' =>
      match l' with
      | [] => true
      | y :: _ => (x <=? y) && ascending l'
      end
  end.

(** The levels of a tree one after the other: breadth-first order. *)
Definition breadth_first (t : node) : list node :=
  concat (map (fun d => level d t) (seq 0 (node_size t))).

(** ** Sample inputs *)

Definition class_name (n : node) : string :=
  match n with
  | Module _ _ => "Module"
  | FunctionDef _ _ _ _ _ _ _ => "FunctionDef"
  | AsyncFunctionDef _ _ _ _ _ _ _ => "AsyncFunctionDef"
  | ClassDef _ _ _ _ _ _ _ => "ClassDef"
  | If _ _ _ _ => "If"
  | Expr _ => "Expr"
  | Constant _ => "Constant"
  | Other cls _ => cls
  end.

(** A stand-in for [ast.dump] to run the examples with: the class names of
    the nodes of the tree.  The theorems hold for every dump. *)
Definition demo_dump (n : node) : result string :=
  Ok (String.concat ", " (map class_name (walk n))).

(** A parser given by a table of texts and their trees. *)
Definition table_parse (table : list (string * node)) (text : string)
  : option node :=
  snd <$> find (fun entry => String.eqb (fst entry) text) table.

(** A file system with one file. *)
Definition one_file (path text : string) : filesystem :=
  fun p => if String.eqb p path then Text text else Missing.

Definition no_args : node := Other "arguments" [].
Definition pass_stmt : node := Other "Pass" [].
Definition name_expr : node := Other "Name" [Other "Load" []].




(** A function [f] on line 1 with a function [g] nested on line 2, and a
    function [h] on line 4, none documented. *)
Definition nested_defs : node :=
  Module
    [FunctionDef 1 "f" no_args
       [FunctionDef 2 "g" no_args [pass_stmt] [] None []] [] None [];
     FunctionDef 4 "h" no_args [pass_stmt] [] None []]
    [].

Definition nested_defs_text : string :=
  "def f():" +:+ nl +:+ "    def g(): pass" +:+ nl +:+ nl
  +:+ "def h(): pass" +:+ nl.

Definition nested_defs_object : analyzer :=
  mkAnalyzer "a.py" ∅ nested_defs_text nested_defs.

(** An [if] on line 2 whose body is an [if] on line 3. *)
Definition nested_if : node :=
  If 2 name_expr [If 3 name_expr [pass_stmt] []] [].

Definition nested_if_text : string :=
  "# two conditions" +:+ nl +:+ "if a:" +:+ nl +:+ "    if b:" +:+ nl
  +:+ "        pass" +:+ nl.

Definition nested_if_object : analyzer :=
  mkAnalyzer "a.py" ∅ nested_if_text (Module [nested_if] []).

(** A file with one short comment, and what it may be replaced with. *)
Definition short_comment_text : string := "# ok" +:+ nl.
Definition long_comment_text : string := "# this is long enough" +:+ nl.

Definition min_length_guide : gmap string sg_value :=
  {[ "min_length" := SInt 10 ]}.

Definition comment_object : analyzer :=
  mkAnalyzer "a.py" min_length_guide short_comment_text (Module [] []).

Definition comment_parse : string -> option node :=
  table_parse [(short_comment_text, Module [] [])].

(** A changed line with a comment three lines above it. *)
Definition val_text : string :=
  "# scale val first" +:+ nl +:+ "x = 1" +:+ nl +:+ "y = 2" +:+ nl
  +:+ "result = val + 5" +:+ nl.

(** A file that is one comment holding the pattern. *)
Definition pattern_comment_text : string := "# old result = val + 5" +:+ nl.

(** ** Further notions for the properties of the passes *)

Definition quote : string := String (ascii_of_nat 34) EmptyString.

(** Depth-first pre-order: a node, then the subtrees of its children from
    left to right.  The recursion goes no deeper than the tree has nodes. *)
Fixpoint preorder_loop (depth : nat) (n : node) : list node :=
  match depth with
  | O => []
  | S depth' => n :: flat_map (preorder_loop depth') (iter_child_nodes n)
  end.

Definition preorder (t : node) : list node := preorder_loop (node_size t) t.

(** The dump raises in the turn of [check_missing_comments] on this node:
    an [if] whose body does not settle the classification and whose test
    the dump fails on. *)
Definition dump_raises (ast_dump : node -> result string) (n : node) : bool :=
  match n with
  | If _ test body _ =>
      match complex_if ast_dump test body with
      | Ok _ => false
      | Raise _ => true
      end
  | _ => false
  end.

(** The dump returns wherever [check_missing_comments] calls it on the
    tree. *)
Definition dumps_return (ast_dump : node -> result string) (t : node) : bool :=
  forallb (fun n => negb (dump_raises ast_dump n)) (walk t).

(** The turn of [check_missing_comments] on this node opens the file: a
    complex [if] below the first line. *)
Definition reads_file (ast_dump : node -> result string) (n : node) : bool :=
  match n with
  | If lineno test body _ =>
      match complex_if ast_dump test body with
      | Ok complex => complex && (1 <? lineno)
      | Raise _ => false
      end
  | _ => false
  end.

(** An option of the style guide makes the style pass raise [TypeError] on
    a comment line: [min_length] set to a value that [<] does not compare
    with an [int], or [required_prefix] set to a value that is not a
    string. *)
Definition guide_raises (sg : gmap string sg_value) : bool :=
  match sg !! "min_length" with
  | Some v => match number v with Some _ => false | None => true end
  | None => false
  end
  || match sg !! "required_prefix" with
     | Some (SStr _) | None => false
     | Some _ => true
     end.

(** The style issues of line [i] for a style guide that does not raise:
    [min_length] can be any number. *)
Definition style_issues (sg : gmap string sg_value) (il : Z * string)
  : list issue :=
  let '(i, line) := il in
  if is_comment line then
    match sg !! "min_length" with
    | Some v =>
        match number v with
        | Some (below, text) =>
            if below (len (comment_body line))
            then [(i, "length",
                   "Comment is too short (min length: " +:+ text +:+ ")")]
            else []
        | None => []
        end
    | None => []
    end
    ++ match sg !! "required_prefix" with
       | Some (SStr p) =>
           if startswith (comment_body line) p then [] else [prefix_issue i p]
       | _ => []
       end
  else [].

(** The category of an issue. *)
Definition category (i : issue) : string := i.1.2.

(** The line [main] prints for an issue. *)
Definition issue_line (i : issue) : string :=
  "  Line " +:+ str_of_int i.1.1 +:+ ": " +:+ i.1.2 +:+ " - " +:+ i.2.

(** The arguments of the command line, as [parse_args] returns them. *)
Record arguments : Type := mkArguments {
  arg_filename : string;
  arg_style_guide : option string;
  arg_verbose : bool
}.

Section CommandLine.

Variable ast_parse : string -> option node.
Variable ast_dump : node -> result string.

(** [json.load] on the text of the style guide file: the dictionary of a
    document that is an object with integer and string values, or nothing
    for a text that is not a JSON document. *)
Variable json_load : string -> option (gmap string sg_value).

(** [main] from the parsed arguments on: the style guide is loaded when a
    path is given and is not the empty string, then the analysis runs. *)
Definition main_args (fs : filesystem) (args : arguments)
  : list string * Z :=
  let run (style_guide : gmap string sg_value) :=
    main ast_parse ast_dump fs (arg_filename args) (Some style_guide) in
  match arg_style_guide args with
  | Some path =>
      if truthy path then
        match fs path with
        | Missing => ([], 1)
        | Unreadable => ([], 1)
        | Text text =>
            match json_load text with
            | Some style_guide => run style_guide
            | None => ([], 1)
            end
        end
      else run ∅
  | None => run ∅
  end.

End CommandLine.









(** A parser for the examples: the trees of three texts. *)
Definition sample_parse : string -> option node :=
  table_parse [(short_comment_text, Module [] []);
               (nested_if_text, Module [nested_if] []);
               (nested_defs_text, nested_defs)].

(** The text of a style guide file that sets [min_length] to 10. *)
Definition min_length_json : string :=
  "{" +:+ quote +:+ "min_length" +:+ quote +:+ ": 10}".

(** A reader of style guides for the examples: two documents. *)
Definition sample_json (text : string) : option (gmap string sg_value) :=
  if String.eqb text "{}" then Some ∅
  else if String.eqb text min_length_json then Some min_length_guide
  else None.

(** ** Facts on strings *)

Lemma sapp_cons (c : ascii) (a b : string) :
  String c a +:+ b = String c (a +:+ b).
Proof. reflexivity. Qed.

Lemma sapp_nil_l (b : string) : EmptyString +:+ b = b.
Proof. reflexivity. Qed.

Lemma sapp_nil_r (s : string) : s +:+ EmptyString = s.
Proof.
  induction s as [|c s IH]; [reflexivity|]. rewrite sapp_cons, IH. reflexivity.
Qed.

Lemma sapp_assoc (a b c : string) : (a +:+ b) +:+ c = a +:+ b +:+ c.
Proof.
  induction a as [|x a IH]; [reflexivity|]. rewrite !sapp_cons, IH. reflexivity.
Qed.

Lemma truthy_false (s : string) : truthy s = false <-> s = EmptyString.
Proof. destruct s; simpl; split; congruence. Qed.

Lemma truthy_app_r (a b : string) : truthy b = true -> truthy (a +:+ b) = true.
Proof. destruct a; [auto|reflexivity]. Qed.

Lemma isspace_not_eq (c d : ascii) :
  isspace c = true -> isspace d = false -> Ascii.eqb c d = false.
Proof.
  intros Hc Hd. apply Ascii.eqb_neq. intros ->. congruence.
Qed.

Lemma isword_not_space (c : ascii) : isword c = true -> isspace c = false.
Proof.
  destruct c as [b0 b1 b2 b3 b4 b5 b6 b7].
  destruct b0, b1, b2, b3, b4, b5, b6, b7; vm_compute; congruence.
Qed.

(** *** Trimming *)

Lemma rstrip_idem (s : string) : rstrip (rstrip s) = rstrip s.
Proof.
  induction s as [|c s IH]; simpl; [reflexivity|].
  destruct (isspace c && negb (truthy (rstrip s))) eqn:E; simpl.
  - reflexivity.
  - rewrite IH, E. reflexivity.
Qed.

Lemma lstrip_rstrip (s : string) : lstrip (rstrip s) = rstrip (lstrip s).
Proof.
  induction s as [|c s IH]; simpl; [reflexivity|].
  destruct (isspace c) eqn:Ec; simpl.
  - destruct (truthy (rstrip s)) eqn:Er; simpl.
    + rewrite Ec. exact IH.
    + apply truthy_false in Er. rewrite <- IH, Er. reflexivity.
  - rewrite Ec. reflexivity.
Qed.

Lemma strip_rstrip (s : string) : strip (rstrip s) = strip s.
Proof. unfold strip. rewrite lstrip_rstrip. apply rstrip_idem. Qed.

Lemma lstrip_app (a w b : string) (c : ascii) :
  isspace c = false ->
  lstrip (a +:+ String c w +:+ b) = lstrip a +:+ String c w +:+ b.
Proof.
  intros Hc. induction a as [|x a IH].
  - rewrite sapp_nil_l, sapp_cons. simpl. rewrite Hc. reflexivity.
  - rewrite sapp_cons. simpl. destruct (isspace x); [exact IH|reflexivity].
Qed.

Lemma rstrip_app_word (w b : string) :
  all_chars (fun c => negb (isspace c)) w = true ->
  rstrip (w +:+ b) = w +:+ rstrip b.
Proof.
  induction w as [|c w IH]; intros H; [reflexivity|].
  simpl in H. apply andb_true_iff in H as [Hc Hw]. apply negb_true_iff in Hc.
  rewrite sapp_cons. simpl. rewrite Hc. simpl. rewrite (IH Hw). reflexivity.
Qed.

Lemma rstrip_app (a w b : string) :
  truthy w = true ->
  all_chars (fun c => negb (isspace c)) w = true ->
  rstrip (a +:+ w +:+ b) = a +:+ w +:+ rstrip b.
Proof.
  intros Hw Hall. induction a as [|x a IH].
  - rewrite !sapp_nil_l. apply rstrip_app_word, Hall.
  - rewrite !sapp_cons. simpl. rewrite IH.
    rewrite (truthy_app_r a), andb_false_r; [reflexivity|].
    destruct w; [discriminate|reflexivity].
Qed.

Lemma strip_app (a w b : string) :
  truthy w = true ->
  all_chars (fun c => negb (isspace c)) w = true ->
  strip (a +:+ w +:+ b) = lstrip a +:+ w +:+ rstrip b.
Proof.
  intros Hw Hall. unfold strip.
  destruct w as [|c w]; [discriminate|].
  rewrite lstrip_app.
  - apply rstrip_app; assumption.
  - simpl in Hall. apply andb_true_iff in Hall as [Hc _].
    apply negb_true_iff in Hc. exact Hc.
Qed.

(** *** Prefixes and occurrences *)

Lemma startswith_app (w b : string) : startswith (w +:+ b) w = true.
Proof.
  induction w as [|c w IH]; [reflexivity|].
  rewrite sapp_cons. simpl. rewrite Ascii.eqb_refl. exact IH.
Qed.

Lemma startswith_split (s p : string) :
  startswith s p = true -> exists b, s = p +:+ b.
Proof.
  revert s. induction p as [|c p IH]; intros s H.
  - exists s. reflexivity.
  - destruct s as [|a s]; simpl in H; [discriminate|].
    destruct (Ascii.eqb_spec a c) as [->|]; [|discriminate].
    destruct (IH s H) as [b ->]. exists b. reflexivity.
Qed.

Lemma contains_app (a w b : string) : contains (a +:+ w +:+ b) w = true.
Proof.
  induction a as [|x a IH].
  - rewrite sapp_nil_l. destruct (w +:+ b) eqn:E; simpl; rewrite <- E;
      rewrite startswith_app; reflexivity.
  - rewrite sapp_cons. simpl. rewrite IH. apply orb_true_r.
Qed.

Lemma contains_split (s w : string) :
  contains s w = true -> exists a b, s = a +:+ w +:+ b.
Proof.
  induction s as [|c s IH]; simpl; intros H.
  - rewrite orb_false_r in H. apply startswith_split in H as [b ->].
    exists EmptyString, b. reflexivity.
  - apply orb_true_iff in H as [H|H].
    + apply startswith_split in H as [b ->]. exists EmptyString, b. reflexivity.
    + destruct (IH H) as (a & b & ->). exists (String c a), b. reflexivity.
Qed.

(** *** Splitting at the comment marker *)

Lemma split1_text_after (sep : ascii) (s : string) :
  getitem (split1 sep s) 1
  = match text_after sep s with
    | Some post => Ok post
    | None => Raise IndexError
    end.
Proof.
  assert (H : forall s,
    match text_after sep s with
    | Some post => exists pre, split1 sep s = [pre; post]
    | None => split1 sep s = [s]
    end).
  { clear s. induction s as [|c s IH]; simpl; [reflexivity|].
    destruct (Ascii.eqb c sep); [eexists; reflexivity|].
    destruct (text_after sep s) as [post|].
    - destruct IH as [pre ->]. eexists; reflexivity.
    - rewrite IH. reflexivity. }
  specialize (H s). destruct (text_after sep s) as [post|].
  - destruct H as [pre ->]. reflexivity.
  - rewrite H. reflexivity.
Qed.

Lemma text_after_rstrip (s : string) :
  text_after "#" (rstrip s) = rstrip <$> text_after "#" s.
Proof.
  induction s as [|c s IH]; simpl; [reflexivity|].
  destruct (Ascii.eqb_spec c "#") as [->|Hne].
  - simpl. reflexivity.
  - destruct (isspace c && negb (truthy (rstrip s))) eqn:E; simpl.
    + apply andb_true_iff in E as [_ E]. apply negb_true_iff, truthy_false in E.
      rewrite E in IH. simpl in IH.
      destruct (text_after "#" s); [discriminate|reflexivity].
    + apply Ascii.eqb_neq in Hne. rewrite Hne. exact IH.
Qed.

Lemma text_after_lstrip (s : string) :
  text_after "#" (lstrip s) = text_after "#" s.
Proof.
  induction s as [|c s IH]; simpl; [reflexivity|].
  destruct (isspace c) eqn:Ec.
  - rewrite (isspace_not_eq c "#" Ec eq_refl). exact IH.
  - reflexivity.
Qed.

Lemma comment_has_marker (line : string) :
  is_comment line = true -> exists post, text_after "#" line = Some post.
Proof.
  unfold is_comment, strip. intros H.
  destruct (rstrip (lstrip line)) as [|c r] eqn:E; simpl in H; [discriminate|].
  destruct (Ascii.eqb_spec c "#") as [->|]; [|discriminate].
  assert (Ht : text_after "#" (rstrip (lstrip line)) = Some r).
  { rewrite E. reflexivity. }
  rewrite text_after_rstrip, text_after_lstrip in Ht.
  destruct (text_after "#" line) as [post|]; [eauto|discriminate].
Qed.

(** The comment text the style pass computes is the trimmed text after the
    first marker of the physical line. *)
Lemma style_comment_text (line : string) :
  is_comment line = true ->
  (after <- getitem (split1 "#" (rstrip line)) 1 ;; Ok (strip after))
  = Ok (comment_body line).
Proof.
  intros H. destruct (comment_has_marker line H) as [post Hp].
  rewrite split1_text_after, text_after_rstrip, Hp. simpl.
  unfold comment_body. rewrite Hp. simpl. f_equal. apply strip_rstrip.
Qed.

(** *** Words *)

Lemma words_from_occur (s cur w : string) :
  all_chars isword cur = true ->
  w ∈ words_from cur s ->
  truthy w = true /\ all_chars isword w = true
  /\ exists a b, cur +:+ s = a +:+ w +:+ b.
Proof.
  revert cur. induction s as [|c s IH]; intros cur Hcur Hin.
  - simpl in Hin. destruct (truthy cur) eqn:Et.
    + apply list_elem_of_singleton in Hin as ->.
      repeat split; try assumption. exists EmptyString, EmptyString. rewrite !sapp_nil_r. reflexivity.
    + inversion Hin.
  - simpl in Hin. destruct (isword c) eqn:Ec.
    + apply IH in Hin.
      * destruct Hin as (Ht & Ha & a & b & E). repeat split; try assumption.
        exists a, b. rewrite <- E, sapp_assoc. reflexivity.
      * clear -Hcur Ec. induction cur as [|x cur IHc]; simpl in *.
        -- rewrite Ec. reflexivity.
        -- apply andb_true_iff in Hcur as [-> Hc]. simpl. apply IHc, Hc.
    + apply elem_of_app in Hin as [Hin|Hin].
      * destruct (truthy cur) eqn:Et; [|inversion Hin].
        apply list_elem_of_singleton in Hin as ->.
        repeat split; try assumption. exists EmptyString, (String c s). reflexivity.
      * apply IH in Hin; [|reflexivity].
        destruct Hin as (Ht & Ha & a & b & E). repeat split; try assumption.
        exists (cur +:+ String c a), b.
        rewrite sapp_nil_l in E. rewrite E, sapp_assoc. reflexivity.
Qed.

Lemma all_chars_impl (p q : ascii -> bool) (s : string) :
  (forall c, p c = true -> q c = true) ->
  all_chars p s = true -> all_chars q s = true.
Proof.
  intros Hpq. induction s as [|c s IH]; simpl; [reflexivity|].
  intros H. apply andb_true_iff in H as [Hc Hs].
  rewrite (Hpq c Hc), (IH Hs). reflexivity.
Qed.

(** Every word of a line occurs in the trimmed line. *)
Lemma word_in_stripped (line w : string) :
  w ∈ findall_words line -> contains (strip line) w = true.
Proof.
  intros Hin. apply words_from_occur in Hin; [|reflexivity].
  destruct Hin as (Ht & Ha & a & b & E). rewrite sapp_nil_l in E. subst line.
  rewrite strip_app; [apply contains_app|exact Ht|].
  revert Ha. apply all_chars_impl. intros c Hc.
  rewrite (isword_not_space c Hc). reflexivity.
Qed.

(** A word set between two characters that are not word characters is one
    of the words found. *)
Lemma words_from_between (a w b cur : string) (x y : ascii) :
  isword x = false -> isword y = false ->
  truthy w = true -> all_chars isword w = true ->
  w ∈ words_from cur (a +:+ String x (w +:+ String y b)).
Proof.
  intros Hx Hy Hw Ha.
  assert (Hrun : forall w cur, all_chars isword w = true ->
            words_from cur (w +:+ String y b)
            = (if truthy (cur +:+ w) then [cur +:+ w] else [])
              ++ words_from EmptyString b).
  { clear -Hy. induction w as [|c w IH]; intros cur Ha.
    - rewrite sapp_nil_l, sapp_nil_r. simpl. rewrite Hy. reflexivity.
    - simpl in Ha. apply andb_true_iff in Ha as [Hc Ha].
      rewrite sapp_cons. simpl. rewrite Hc, (IH _ Ha), sapp_assoc. reflexivity. }
  revert cur. induction a as [|c a IH]; intros cur.
  - rewrite sapp_nil_l. simpl. rewrite Hx. apply elem_of_app. right.
    rewrite (Hrun w EmptyString Ha), sapp_nil_l, Hw. apply elem_of_app. left.
    apply list_elem_of_singleton. reflexivity.
  - rewrite sapp_cons. simpl. destruct (isword c).
    + apply IH.
    + apply elem_of_app. right. apply IH.
Qed.

(** Every line with the changed-line pattern has the word [val]. *)
Lemma val_in_changed_line (line : string) :
  search_changed line = true -> "val" ∈ findall_words line.
Proof.
  unfold search_changed. intros H.
  apply contains_split in H as (a & b & ->).
  change (a +:+ changed_lines_pattern +:+ b)
    with (a +:+ "result =" +:+ String " " ("val" +:+ String " " ("+ 5" +:+ b))).
  rewrite <- (sapp_assoc a "result =").
  apply words_from_between; reflexivity.
Qed.

Example strip_ex : strip ("  # ok " +:+ nl) = "# ok".
Proof. reflexivity. Qed.

Example readlines_ex :
  readlines ("a" +:+ nl +:+ nl +:+ "b") = ["a" +:+ nl; nl; "b"].
Proof. reflexivity. Qed.

Example findall_ex :
  findall_words ("    result = val + 5" +:+ nl) = ["result"; "val"; "5"].
Proof. reflexivity. Qed.

Example str_of_int_ex : str_of_int 10 = "10" /\ str_of_int (-3) = "-3" /\ str_of_int 0 = "0".
Proof. repeat split; reflexivity. Qed.


Example min_length_ex :
  style_findings {[ "min_length" := SInt 10 ]} (1, "# ok")
  = [(1, "length", "Comment is too short (min length: 10)")]
  /\ style_findings {[ "min_length" := SInt 10 ]} (1, "# this is long enough")
     = [].
Proof. split; reflexivity. Qed.

Example required_prefix_ex :
  style_findings {[ "required_prefix" := SStr "TODO:" ]} (1, "# TODO: fix this")
  = []
  /\ style_findings {[ "required_prefix" := SStr "TODO:" ]} (1, "# fix this")
     = [(1, "prefix", "Comment does not start with required prefix: TODO:")].
Proof. split; reflexivity. Qed.

Example walk_ex :
  map class_name (walk nested_if)
  = ["If"; "Name"; "If"; "Load"; "Name"; "Pass"; "Load"].
Proof. reflexivity. Qed.

(** The detectors can raise: on an option of the wrong type, on a file
    removed after construction, on a test that the dump fails on. *)
Example ill_typed_guide_ex :
  enforce_comment_style_consistency (one_file "a.py" short_comment_text)
    (mkAnalyzer "a.py" {[ "min_length" := SStr "10" ]} short_comment_text
       (Module [] []))
  = Raise TypeError.
Proof. reflexivity. Qed.

Example removed_file_ex :
  check_missing_comments demo_dump (fun _ => Missing) nested_if_object
  = Raise FileNotFoundError
  /\ identify_outdated_comments (fun _ => Missing) nested_if_object
     = Raise FileNotFoundError.
Proof. split; reflexivity. Qed.

Example deep_test_ex :
  check_missing_comments (fun _ => Raise RecursionError)
    (one_file "a.py" nested_if_text)
    (mkAnalyzer "a.py" ∅ nested_if_text
       (Module [If 1 name_expr [pass_stmt] []] []))
  = Raise RecursionError.
Proof. reflexivity. Qed.

(** A float or a boolean for [min_length] is compared as a number. *)
Example float_min_length_ex :
  enforce_comment_style_consistency (one_file "a.py" short_comment_text)
    (mkAnalyzer "a.py" {[ "min_length" := SFloat (FFinite 5 (-1)) "2.5" ]}
       short_comment_text (Module [] []))
  = Ok [(1, "length", "Comment is too short (min length: 2.5)")]
  /\ enforce_comment_style_consistency (one_file "a.py" short_comment_text)
       (mkAnalyzer "a.py" {[ "min_length" := SBool true ]}
          short_comment_text (Module [] []))
     = Ok [].
Proof. split; reflexivity. Qed.

(** ** Facts on [ast.walk] *)

Lemma forest_size_app (a b : list node) :
  forest_size (a ++ b) = (forest_size a + forest_size b)%nat.
Proof.
  induction a as [|x a IH]; simpl; [reflexivity|]. rewrite IH. lia.
Qed.

Lemma node_size_children (n : node) :
  node_size n = S (forest_size (iter_child_nodes n)).
Proof.
  assert (Hs : forall l,
    (fix sizes (l : list node) : nat :=
       match l with
       | [] => O
       | x :: l' => (node_size x + sizes l')%nat
       end) l = forest_size l).
  { induction l as [|x l IH]; simpl; [reflexivity|]. rewrite IH. reflexivity. }
  destruct n as [b t|l nm a b d r tp|l nm a b d r tp|l nm bs ks b d tp
                |l t b o|v|c|c ch]; simpl.
  - rewrite (Hs b), (Hs t), forest_size_app. reflexivity.
  - rewrite (Hs b), (Hs d), (Hs tp), !forest_size_app.
    destruct r; simpl; lia.
  - rewrite (Hs b), (Hs d), (Hs tp), !forest_size_app.
    destruct r; simpl; lia.
  - rewrite (Hs bs), (Hs ks), (Hs b), (Hs d), (Hs tp), !forest_size_app. lia.
  - rewrite (Hs b), (Hs o), forest_size_app. lia.
  - lia.
  - reflexivity.
  - rewrite (Hs ch). reflexivity.
Qed.

Lemma node_size_pos (n : node) : (0 < node_size n)%nat.
Proof. rewrite node_size_children. lia. Qed.

Lemma forest_size_children (q : list node) :
  (forest_size (flat_map iter_child_nodes q) + length q = forest_size q)%nat.
Proof.
  induction q as [|n q IH]; simpl; [reflexivity|].
  rewrite forest_size_app, node_size_children. lia.
Qed.

(** The queue loop outputs its queue, then goes on with the children of
    the nodes it has output; [p] are nodes output before, whose children
    wait at the back of the queue. *)
Lemma walk_loop_front (q p : list node) (turns : nat) :
  (forest_size (q ++ flat_map iter_child_nodes p) <= turns)%nat ->
  walk_loop turns (q ++ flat_map iter_child_nodes p)
  = q ++ walk_loop (turns - length q)
           (flat_map iter_child_nodes p ++ flat_map iter_child_nodes q).
Proof.
  revert p turns. induction q as [|n q IH]; intros p turns Hle.
  - simpl. rewrite Nat.sub_0_r, app_nil_r. reflexivity.
  - simpl in Hle. pose proof (node_size_pos n) as Hn.
    destruct turns as [|turns]; [lia|]. simpl.
    f_equal.
    specialize (IH (p ++ [n]) turns).
    rewrite flat_map_app in IH. simpl in IH. rewrite app_nil_r in IH.
    rewrite <- !app_assoc in *.
    rewrite IH; [reflexivity|].
    rewrite !forest_size_app in *. rewrite node_size_children in Hle. lia.
Qed.

Lemma level_succ_forest (d : nat) (q : list node) :
  flat_map (level (S d)) q = flat_map (level d) (flat_map iter_child_nodes q).
Proof.
  induction q as [|n q IH]; simpl; [reflexivity|].
  rewrite flat_map_app. f_equal. exact IH.
Qed.

Lemma level_zero_forest (q : list node) : flat_map (level 0) q = q.
Proof. induction q as [|n q IH]; simpl; [reflexivity|]. f_equal. exact IH. Qed.

Lemma level_beyond_size (d : nat) (q : list node) :
  (forest_size q <= d)%nat -> flat_map (level d) q = [].
Proof.
  revert q. induction d as [|d IH]; intros q Hle.
  - destruct q as [|n q]; [reflexivity|].
    simpl in Hle. pose proof (node_size_pos n). lia.
  - rewrite level_succ_forest. apply IH.
    pose proof (forest_size_children q) as Hc.
    destruct q as [|n q]; simpl in *; [lia|]. lia.
Qed.

Lemma walk_loop_levels (h : nat) (q : list node) (turns : nat) :
  (forest_size q <= turns)%nat ->
  flat_map (level h) q = [] ->
  walk_loop turns q
  = concat (map (fun d => flat_map (level d) q) (seq 0 h)).
Proof.
  revert q turns. induction h as [|h IH]; intros q turns Hle Hempty.
  - rewrite level_zero_forest in Hempty. subst q.
    destruct turns; reflexivity.
  - pose proof (walk_loop_front q [] turns) as Hf. simpl in Hf.
    rewrite app_nil_r in Hf. rewrite (Hf Hle). clear Hf.
    simpl. rewrite level_zero_forest. f_equal.
    rewrite <- seq_shift, map_map.
    rewrite (IH (flat_map iter_child_nodes q)).
    + f_equal. apply map_ext. intros d. symmetry. apply level_succ_forest.
    + pose proof (forest_size_children q). lia.
    + rewrite <- level_succ_forest. exact Hempty.
Qed.

(** [ast.walk] yields the tree level by level. *)
Lemma walk_levels (t : node) :
  walk t = breadth_first t.
Proof.
  unfold walk, breadth_first.
  rewrite (walk_loop_levels (node_size t) [t] (node_size t)).
  - f_equal. apply map_ext. intros d. simpl. apply app_nil_r.
  - simpl. lia.
  - apply level_beyond_size. simpl. lia.
Qed.

(** The loop of [ast.walk] has come to its end after one turn for each node:
    more turns yield nothing more. *)
Lemma walk_loop_enough (t : node) (turns : nat) :
  (node_size t <= turns)%nat -> walk_loop turns [t] = walk t.
Proof.
  intros Hle. unfold walk.
  rewrite (walk_loop_levels (node_size t) [t] turns),
          (walk_loop_levels (node_size t) [t] (node_size t));
    try reflexivity; try (simpl; lia);
    apply level_beyond_size; simpl; lia.
Qed.

(** ** Facts on the loops *)

Lemma for_each_app {A S : Type} (body : A -> S -> result S) (xs ys : list A)
    (s : S) :
  for_each body (xs ++ ys) s
  = (s' <- for_each body xs s ;; for_each body ys s').
Proof.
  revert s. induction xs as [|x xs IH]; intros s; simpl; [reflexivity|].
  destruct (body x s) as [s'|e]; simpl; [apply IH|reflexivity].
Qed.

(** A loop whose turns only append to the accumulator. *)
Lemma for_each_appends {A B : Type} (body : A -> list B -> result (list B))
    (f : A -> list B) (xs : list A) (acc : list B) :
  (forall x acc, x ∈ xs -> body x acc = Ok (acc ++ f x)) ->
  for_each body xs acc = Ok (acc ++ flat_map f xs).
Proof.
  revert acc. induction xs as [|x xs IH]; intros acc H; simpl.
  - rewrite app_nil_r. reflexivity.
  - rewrite H by apply list_elem_of_here. simpl.
    rewrite IH, app_assoc; [reflexivity|].
    intros y acc' Hy. apply H. apply list_elem_of_further, Hy.
Qed.

(** A loop whose turns append what they find, when they do not raise. *)
Lemma for_each_found {A B : Type} (body : A -> list B -> result (list B))
    (g : A -> result (list B)) (xs : list A) (acc out : list B) :
  (forall x acc, body x acc = (new <- g x ;; Ok (acc ++ new))) ->
  for_each body xs acc = Ok out ->
  out = acc ++ flat_map (fun x => match g x with
                                  | Ok new => new
                                  | Raise _ => []
                                  end) xs.
Proof.
  intros Hb. revert acc. induction xs as [|x xs IH]; intros acc H; simpl in *.
  - rewrite app_nil_r. congruence.
  - rewrite Hb in H. destruct (g x) as [new|e]; simpl in H; [|discriminate].
    apply IH in H. rewrite H, app_assoc. reflexivity.
Qed.

Lemma enumerate_lookup {A : Type} (xs : list A) (start : Z) (k : nat) (x : A) :
  xs !! k = Some x -> (start + Z.of_nat k, x) ∈ enumerate start xs.
Proof.
  revert start k. induction xs as [|y xs IH]; intros start k H.
  - discriminate.
  - destruct k as [|k]; simpl in *.
    + injection H as ->. rewrite Z.add_0_r. apply list_elem_of_here.
    + apply list_elem_of_further.
      replace (start + Z.of_nat (S k)) with (start + 1 + Z.of_nat k) by lia.
      apply (IH (start + 1) k H).
Qed.

Lemma getitem_lookup {A : Type} (l : list A) (k : nat) (x : A) :
  l !! k = Some x -> getitem l (Z.of_nat k) = Ok x.
Proof.
  intros H. unfold getitem.
  pose proof (lookup_lt_Some l k x H) as Hlt.
  destruct (Z.ltb_spec (Z.of_nat k) 0) as [?|_]; [lia|].
  destruct (Z.ltb_spec (Z.of_nat k) 0) as [?|_]; [lia|].
  destruct (Z.leb_spec (Z.of_nat (length l)) (Z.of_nat k)) as [?|_]; [lia|].
  simpl. rewrite Nat2Z.id, H. reflexivity.
Qed.

Lemma getitem_in_range {A : Type} (l : list A) (k : Z) :
  0 <= k < Z.of_nat (length l) ->
  exists x, l !! Z.to_nat k = Some x /\ getitem l k = Ok x.
Proof.
  intros Hk. destruct (lookup_lt_is_Some_2 l (Z.to_nat k)) as [x Hx]; [lia|].
  exists x. split; [exact Hx|].
  rewrite <- (Z2Nat.id k) by lia. apply getitem_lookup, Hx.
Qed.

(** *** The missing-documentation pass *)

Lemma check_node_acc (ast_dump : node -> result string) (fs : filesystem)
    (self : analyzer) (n : node) (acc : list issue) :
  check_node ast_dump fs self n acc
  = (new <- check_node ast_dump fs self n [] ;; Ok (acc ++ new)).
Proof.
  destruct n; simpl; rewrite ?app_nil_r; try reflexivity.
  1-3: match goal with |- context [negb ?b] => destruct b end; simpl;
       rewrite ?app_nil_r; reflexivity.
  destruct (complex_if ast_dump n body) as [[|]|e]; cbn [bind];
    [|rewrite app_nil_r; reflexivity|reflexivity].
  destruct (1 <? lineno); [|reflexivity].
  destruct (open_read fs (filename self)) as [text|e]; simpl; [|reflexivity].
  destruct (0 <=? lineno - 2); [|simpl; rewrite app_nil_r; reflexivity].
  destruct (getitem (readlines text) (lineno - 2)) as [prev|e]; simpl;
    [|reflexivity].
  match goal with |- context [negb ?b] => destruct b end; simpl;
    rewrite ?app_nil_r; reflexivity.
Qed.

(** The list returned is what the nodes add, in the order of the walk. *)
Lemma check_missing_comments_found (ast_dump : node -> result string)
    (fs : filesystem) (self : analyzer) (out : list issue) :
  check_missing_comments ast_dump fs self = Ok out ->
  out = flat_map (findings ast_dump fs self) (walk (tree self)).
Proof.
  intros H. unfold check_missing_comments in H.
  apply (for_each_found _ (fun n => check_node ast_dump fs self n [])) in H.
  - exact H.
  - intros n acc. apply check_node_acc.
Qed.



(** *** The style pass *)

Lemma style_line_findings (self : analyzer) (il : Z * string)
    (acc : list issue) :
  guide_typed (style_guide self) = true ->
  style_line self il acc = Ok (acc ++ style_findings (style_guide self) il).
Proof.
  intros Ht. destruct il as [i line]. unfold style_line, style_findings.
  assert (Hc : startswith (strip (rstrip line)) "#" = is_comment line).
  { unfold is_comment. rewrite strip_rstrip. reflexivity. }
  rewrite Hc. destruct (is_comment line) eqn:E;
    [|rewrite app_nil_r; reflexivity].
  pose proof (style_comment_text line E) as Hb.
  destruct (getitem (split1 "#" (rstrip line)) 1) as [after|e]; simpl in Hb;
    [|discriminate].
  injection Hb as Hb. cbn [bind]. rewrite Hb.
  unfold guide_typed in Ht. apply andb_true_iff in Ht as [Hm Hp].
  destruct (style_guide self !! "min_length") as [[m|s|b|x t| | |]|];
    try discriminate;
    destruct (style_guide self !! "required_prefix") as [[m'|p|b'|x' t'| | |]|];
    try discriminate; cbn [number];
    try destruct (len (comment_body line) <? m);
    try destruct (startswith (comment_body line) p);
    cbn [bind negb app]; rewrite ?app_nil_r, <- ?app_assoc; reflexivity.
Qed.

Lemma enforce_comment_style_consistency_found (fs : filesystem)
    (self : analyzer) (text : string) :
  guide_typed (style_guide self) = true ->
  fs (filename self) = Text text ->
  enforce_comment_style_consistency fs self
  = Ok (flat_map (style_findings (style_guide self))
          (enumerate 1 (readlines text))).
Proof.
  intros Ht Hf. unfold enforce_comment_style_consistency.
  destruct (bool_decide (style_guide self = ∅)) eqn:E.
  - apply bool_decide_eq_true_1 in E.
    assert (Hn : forall l, flat_map (style_findings (style_guide self)) l = []).
    { induction l as [|[i line] l IH]; simpl; [reflexivity|].
      rewrite IH, E, !lookup_empty. destruct (is_comment line); reflexivity. }
    rewrite Hn. reflexivity.
  - unfold open_read. rewrite Hf. cbn [bind].
    rewrite (for_each_appends _ (style_findings (style_guide self)));
      [reflexivity|].
    intros il acc _. apply style_line_findings, Ht.
Qed.

Lemma for_each_cases {A B : Type} (body : A -> list B -> result (list B))
    (bad : A -> bool) (f : A -> list B) (e : exn) (xs : list A)
    (acc : list B) :
  (forall x acc,
      body x acc = if bad x then Raise e else Ok (acc ++ f x)) ->
  for_each body xs acc
  = if existsb bad xs then Raise e else Ok (acc ++ flat_map f xs).
Proof.
  intros Hb. revert acc. induction xs as [|x xs IH]; intros acc; simpl.
  - rewrite app_nil_r. reflexivity.
  - rewrite Hb. destruct (bad x); simpl; [reflexivity|].
    rewrite IH, app_assoc. reflexivity.
Qed.

(** A turn of the style loop raises [TypeError] on a comment line when an
    option has a value the comparison or [startswith] refuses, and adds the
    issues of the line otherwise. *)
Lemma style_line_cases (self : analyzer) (il : Z * string)
    (acc : list issue) :
  style_line self il acc
  = if is_comment il.2 && guide_raises (style_guide self)
    then Raise TypeError
    else Ok (acc ++ style_issues (style_guide self) il).
Proof.
  destruct il as [i line]. unfold style_line, style_issues. cbn [snd].
  assert (Hc : startswith (strip (rstrip line)) "#" = is_comment line).
  { unfold is_comment. rewrite strip_rstrip. reflexivity. }
  rewrite Hc. destruct (is_comment line) eqn:E;
    [|rewrite app_nil_r; reflexivity].
  pose proof (style_comment_text line E) as Hb.
  destruct (getitem (split1 "#" (rstrip line)) 1) as [after|e]; simpl in Hb;
    [|discriminate].
  injection Hb as Hb. cbn [bind andb]. rewrite Hb.
  unfold guide_raises.
  destruct (style_guide self !! "min_length") as [v|];
    [destruct (number v) as [[below text]|];
     [destruct (below (len (comment_body line)))|]|];
    destruct (style_guide self !! "required_prefix") as [[m'|p|b'|x' t'| | |]|];
    try destruct (startswith (comment_body line) p);
    cbn [bind negb app orb]; rewrite ?app_nil_r, <- ?app_assoc; reflexivity.
Qed.

Lemma existsb_enumerate (p : string -> bool) (c : bool) (start : Z)
    (lines : list string) :
  existsb (fun il : Z * string => p il.2 && c) (enumerate start lines)
  = existsb p lines && c.
Proof.
  revert start. induction lines as [|l lines IH]; intros start; simpl;
    [reflexivity|].
  rewrite IH. destruct (p l), c, (existsb p lines); reflexivity.
Qed.

Lemma guide_raises_empty (sg : gmap string sg_value) :
  sg = ∅ -> guide_raises sg = false.
Proof. intros ->. unfold guide_raises. rewrite !lookup_empty. reflexivity. Qed.

Lemma style_issues_empty (sg : gmap string sg_value) (l : list (Z * string)) :
  sg = ∅ -> flat_map (style_issues sg) l = [].
Proof.
  intros ->. induction l as [|[i line] l IH]; simpl; [reflexivity|].
  rewrite IH, !lookup_empty. destruct (is_comment line); reflexivity.
Qed.

(** The style pass on a readable file, whatever the style guide holds. *)
Lemma enforce_cases (fs : filesystem) (self : analyzer) (text : string) :
  fs (filename self) = Text text ->
  enforce_comment_style_consistency fs self
  = if existsb is_comment (readlines text)
       && guide_raises (style_guide self)
    then Raise TypeError
    else Ok (flat_map (style_issues (style_guide self))
               (enumerate 1 (readlines text))).
Proof.
  intros Hf. unfold enforce_comment_style_consistency.
  destruct (bool_decide (style_guide self = ∅)) eqn:E.
  - apply bool_decide_eq_true_1 in E.
    rewrite (guide_raises_empty _ E), andb_false_r,
            (style_issues_empty _ _ E). reflexivity.
  - unfold open_read. rewrite Hf. cbn [bind].
    rewrite (for_each_cases _
               (fun il => is_comment il.2 && guide_raises (style_guide self))
               (style_issues (style_guide self)) TypeError).
    + rewrite existsb_enumerate. reflexivity.
    + intros il acc. apply style_line_cases.
Qed.

(** *** The staleness pass *)

Lemma flag_comment_find (vars : list string) (check_line : string) (j : Z)
    (acc : list issue) :
  flag_comment vars check_line j acc
  = acc ++ match find (flags check_line) vars with
           | Some var => [outdated_issue j var]
           | None => []
           end.
Proof.
  induction vars as [|var vars IH]; simpl.
  - rewrite app_nil_r. reflexivity.
  - unfold flags at 1. destruct (contains check_line var && (2 <? len var));
      [reflexivity|exact IH].
Qed.

Lemma check_offset_findings (lines : list string) (i : Z) (line : string)
    (offset : Z) (acc : list issue) :
  check_offset lines i line offset acc
  = Ok (acc ++ window_findings lines line (i + offset)).
Proof.
  unfold check_offset, window_findings.
  destruct ((0 <=? i + offset) && (i + offset <? Z.of_nat (length lines)))
    eqn:E; [|rewrite app_nil_r; reflexivity].
  apply andb_true_iff in E as [E1 E2].
  apply Z.leb_le in E1. apply Z.ltb_lt in E2.
  destruct (getitem_in_range lines (i + offset)) as (c & Hc & ->); [lia|].
  rewrite Hc. cbn [bind]. unfold is_comment.
  destruct (startswith (strip c) "#"); [|rewrite app_nil_r; reflexivity].
  rewrite flag_comment_find. reflexivity.
Qed.

Lemma outdated_line_findings (lines : list string) (il : Z * string)
    (acc : list issue) :
  outdated_line lines il acc = Ok (acc ++ changed_findings lines il).
Proof.
  destruct il as [i line]. unfold outdated_line, changed_findings.
  destruct (search_changed line); [|rewrite app_nil_r; reflexivity].
  apply for_each_appends. intros offset acc' _. apply check_offset_findings.
Qed.

Lemma identify_outdated_comments_found (fs : filesystem) (self : analyzer)
    (text : string) :
  fs (filename self) = Text text ->
  identify_outdated_comments fs self
  = Ok (flat_map (changed_findings (readlines text))
          (enumerate 0 (readlines text))).
Proof.
  intros H. unfold identify_outdated_comments, open_read. rewrite H. simpl.
  rewrite (for_each_appends _ (changed_findings (readlines text)));
    [reflexivity|].
  intros il acc _. apply outdated_line_findings.
Qed.

(** ** Missing documentation on definitions *)




(** ** The style pass *)

(** C2: with an empty style guide the style pass returns the empty list
    whatever the file holds, and so it does on a readable file when neither
    option is set.  With a style guide that types its options, on
    a readable file, it returns for each physical line, in order, the issues
    of [style_findings]: none when the trimmed line does not start with the
    marker; otherwise a "length" issue exactly when [min_length] is set and
    the trimmed text after the first marker is shorter, followed by a
    "prefix" issue exactly when [required_prefix] is set and that text does
    not start with it. *)
Theorem style_pass_findings (fs : filesystem) (self : analyzer) :
  (style_guide self = ∅ ->
   enforce_comment_style_consistency fs self = Ok [])
  /\ (forall text,
        guide_typed (style_guide self) = true ->
        fs (filename self) = Text text ->
        enforce_comment_style_consistency fs self
        = Ok (flat_map (style_findings (style_guide self))
                (enumerate 1 (readlines text))))
  /\ (forall text,
        style_guide self !! "min_length" = None ->
        style_guide self !! "required_prefix" = None ->
        fs (filename self) = Text text ->
        enforce_comment_style_consistency fs self = Ok [])
  /\ (forall i line,
        (is_comment line = false ->
         style_findings (style_guide self) (i, line) = [])
        /\ (is_comment line = true ->
            forall m p,
              style_guide self !! "min_length" = m ->
              style_guide self !! "required_prefix" = p ->
              style_findings (style_guide self) (i, line)
              = match m with
                | Some (SInt m) =>
                    if len (comment_body line) <? m
                    then [(i, "length",
                           "Comment is too short (min length: "
                           +:+ str_of_int m +:+ ")")]
                    else []
                | _ => []
                end
                ++ match p with
                   | Some (SStr p) =>
                       if startswith (comment_body line) p then []
                       else [(i, "prefix",
                              "Comment does not start with required prefix: "
                              +:+ p)]
                   | _ => []
                   end)).
Proof.
  split; [|split; [|split]].
  - intros He. unfold enforce_comment_style_consistency.
    rewrite bool_decide_eq_true_2 by exact He. reflexivity.
  - apply enforce_comment_style_consistency_found.
  - intros text Hm Hp Hf.
    rewrite (enforce_comment_style_consistency_found fs self text);
      [|unfold guide_typed; rewrite Hm, Hp; reflexivity|exact Hf].
    f_equal. induction (enumerate 1 (readlines text)) as [|[i line] l IH];
      simpl; [reflexivity|].
    rewrite IH, Hm, Hp. destruct (is_comment line); reflexivity.
  - intros i line. split.
    + intros Hc. unfold style_findings. rewrite Hc. reflexivity.
    + intros Hc m p <- <-. unfold style_findings. rewrite Hc. reflexivity.
Qed.

Lemma style_pass_findings_witness :
  enforce_comment_style_consistency (one_file "a.py" short_comment_text)
    (mkAnalyzer "a.py" ∅ short_comment_text (Module [] [])) = Ok []
  /\ enforce_comment_style_consistency (one_file "a.py" short_comment_text)
       comment_object
     = Ok [(1, "length", "Comment is too short (min length: 10)")]
  /\ style_findings min_length_guide (7, "x = 1  # note" +:+ nl) = [].
Proof.
  split; [|split].
  - apply (proj1 (style_pass_findings (one_file "a.py" short_comment_text)
                    (mkAnalyzer "a.py" ∅ short_comment_text (Module [] [])))).
    reflexivity.
  - apply (proj1 (proj2 (style_pass_findings
                           (one_file "a.py" short_comment_text) comment_object))
             short_comment_text); reflexivity.
  - apply (proj1 (proj2 (proj2 (proj2 (style_pass_findings
                                         (one_file "a.py" short_comment_text)
                                         comment_object)))
                    7 ("x = 1  # note" +:+ nl))).
    reflexivity.
Defined.

(** ** Complex conditionals *)



(** C4: an [if] node is classified as complex exactly when its body has
    more than 3 statements, or a statement of its body is an [if], or the
    dump of its test, where it returns one, is longer than 100 characters.  A node for which none
    of the three holds makes its turn of the loop add nothing, and every
    "complex logic" issue of the list returned stands on the line of an
    [if] node of the tree that is classified as complex. *)
Theorem complex_if_classification (ast_dump : node -> result string)
    (fs : filesystem) (self : analyzer) :
  (forall test body,
      complex_if ast_dump test body = Ok true
      <-> (3 < length body)%nat
          \/ (exists n, n ∈ body /\ is_If n = true)
          \/ (exists dump,
                ast_dump test = Ok dump /\ (100 < String.length dump)%nat))
  /\ (forall lineno test body orelse acc dump,
        (length body <= 3)%nat ->
        (forall n, n ∈ body -> is_If n = false) ->
        ast_dump test = Ok dump ->
        (String.length dump <= 100)%nat ->
        complex_if ast_dump test body = Ok false
        /\ check_node ast_dump fs self (If lineno test body orelse) acc
           = Ok acc)
  /\ (forall out lineno message,
        check_missing_comments ast_dump fs self = Ok out ->
        (lineno, "complex logic", message) ∈ out ->
        exists test body orelse,
          If lineno test body orelse ∈ walk (tree self)
          /\ complex_if ast_dump test body = Ok true).
Proof.
  assert (Hbody : forall body,
      (3 <? Z.of_nat (length body)) || existsb is_If body = true
      <-> (3 < length body)%nat \/ (exists n, n ∈ body /\ is_If n = true)).
  { intros body. rewrite orb_true_iff, Z.ltb_lt, existsb_exists. split.
    - intros [H|(n & Hin & Hn)]; [left; lia|right].
      exists n. split; [apply list_elem_of_In, Hin|exact Hn].
    - intros [H|(n & Hin & Hn)]; [left; lia|right].
      exists n. split; [apply list_elem_of_In, Hin|exact Hn]. }
  assert (Hiff : forall test body,
      complex_if ast_dump test body = Ok true
      <-> (3 < length body)%nat
          \/ (exists n, n ∈ body /\ is_If n = true)
          \/ (exists dump,
                ast_dump test = Ok dump /\ (100 < String.length dump)%nat)).
  { intros test body. unfold complex_if.
    destruct ((3 <? Z.of_nat (length body)) || existsb is_If body) eqn:E.
    - apply Hbody in E. split; [intros _|reflexivity].
      destruct E as [E|E]; auto.
    - assert (Hno : ~ ((3 < length body)%nat
                       \/ (exists n, n ∈ body /\ is_If n = true))).
      { intros H. apply Hbody in H. congruence. }
      destruct (ast_dump test) as [dump|e]; cbn [bind]; split.
      + intros H. injection H as H. apply Z.ltb_lt in H. unfold len in H.
        right. right. exists dump. split; [reflexivity|lia].
      + intros [H|[H|(d & Hd & H)]]; [tauto|tauto|].
        injection Hd as <-. f_equal. apply Z.ltb_lt. unfold len. lia.
      + discriminate.
      + intros [H|[H|(d & Hd & H)]]; [tauto|tauto|discriminate]. }
  split; [exact Hiff|split].
  - intros lineno test body orelse acc dump Hlen Hno Hd Hdump.
    assert (Hc : complex_if ast_dump test body = Ok false).
    { unfold complex_if.
      destruct ((3 <? Z.of_nat (length body)) || existsb is_If body) eqn:E.
      - apply Hbody in E as [E|(n & Hin & Hn)]; [lia|].
        rewrite (Hno n Hin) in Hn. discriminate.
      - rewrite Hd. cbn [bind]. f_equal. apply Z.ltb_ge. unfold len. lia. }
    split; [exact Hc|]. cbn [check_node]. rewrite Hc. reflexivity.
  - intros out lineno message Hout Hin.
    apply check_missing_comments_found in Hout. subst out.
    apply list_elem_of_In, in_flat_map in Hin as (n & Hn & Hin).
    apply list_elem_of_In in Hn.
    unfold findings in Hin.
    destruct n as [b t|l nm a b d r tp|l nm a b d r tp|l nm bs ks b d tp
                  |l t b o|v|c|c ch]; cbn [check_node] in Hin;
      try (destruct Hin; fail).
    1-3: match type of Hin with
         | context [negb ?b] => destruct b; simpl in Hin
         end; first [destruct Hin as [Hin|[]]; discriminate|destruct Hin].
    destruct (complex_if ast_dump t b) as [[|]|e] eqn:Hc; cbn [bind] in Hin;
      [|destruct Hin|destruct Hin].
    exists t, b, o. split; [|exact Hc].
    assert (l = lineno) as <-; [|exact Hn].
    destruct (1 <? l).
    + destruct (open_read fs (filename self)) as [text|e]; cbn [bind] in Hin;
        [|destruct Hin].
      destruct (0 <=? l - 2); [|destruct Hin].
      destruct (getitem (readlines text) (l - 2)) as [prev|e];
        cbn [bind] in Hin; [|destruct Hin].
      destruct (negb (startswith (strip prev) "#")); [|destruct Hin].
      destruct Hin as [Hin|[]]. congruence.
    + destruct Hin as [Hin|[]]. congruence.
Qed.

Lemma complex_if_classification_witness :
  complex_if demo_dump name_expr [pass_stmt] = Ok false
  /\ check_node demo_dump (one_file "a.py" nested_if_text) nested_if_object
       (If 3 name_expr [pass_stmt] []) []
     = Ok []
  /\ exists test body orelse,
       If 1 test body orelse
         ∈ walk (Module [If 1 name_expr [If 2 name_expr [pass_stmt] []] []] [])
       /\ complex_if demo_dump test body = Ok true.
Proof.
  pose proof (complex_if_classification demo_dump
                (one_file "a.py" nested_if_text)
                (mkAnalyzer "a.py" ∅ nested_if_text
                   (Module [If 1 name_expr [If 2 name_expr [pass_stmt] []] []]
                      []))) as (_ & Hsimple & Hout).
  split; [|split].
  - apply (Hsimple 3 name_expr [pass_stmt] [] [] "Name, Load").
    + simpl. lia.
    + intros n Hn. apply list_elem_of_singleton in Hn as ->. reflexivity.
    + reflexivity.
    + simpl. lia.
  - apply (Hsimple 3 name_expr [pass_stmt] [] [] "Name, Load").
    + simpl. lia.
    + intros n Hn. apply list_elem_of_singleton in Hn as ->. reflexivity.
    + reflexivity.
    + simpl. lia.
  - apply (Hout [(1, "complex logic", complex_msg)] 1 complex_msg).
    + reflexivity.
    + apply list_elem_of_here.
Defined.

(** ** The staleness pass *)

Lemma find_first {A : Type} (f : A -> bool) (pre post : list A) (x : A) :
  (forall y, y ∈ pre -> f y = false) -> f x = true ->
  find f (pre ++ x :: post) = Some x.
Proof.
  intros Hpre Hx. induction pre as [|y pre IH]; simpl.
  - rewrite Hx. reflexivity.
  - rewrite (Hpre y) by apply list_elem_of_here.
    apply IH. intros z Hz. apply Hpre, list_elem_of_further, Hz.
Qed.

Lemma find_nothing {A : Type} (f : A -> bool) (l : list A) :
  (forall y, y ∈ l -> f y = false) -> find f l = None.
Proof.
  intros H. induction l as [|y l IH]; simpl; [reflexivity|].
  rewrite (H y) by apply list_elem_of_here.
  apply IH. intros z Hz. apply H, list_elem_of_further, Hz.
Qed.

Lemma find_only (f : string -> bool) (l : list string) (x : string) :
  x ∈ l -> f x = true -> (forall y, y ∈ l -> y <> x -> f y = false) ->
  find f l = Some x.
Proof.
  intros Hin Hx Hothers. induction l as [|y l IH]; [inversion Hin|]. simpl.
  destruct (decide (y = x)) as [->|Hne].
  - rewrite Hx. reflexivity.
  - rewrite (Hothers y) by (apply list_elem_of_here || exact Hne).
    apply IH.
    + apply elem_of_cons in Hin as [->|Hin]; [congruence|exact Hin].
    + intros z Hz. apply Hothers, list_elem_of_further, Hz.
Qed.

(** C5: on a readable file the staleness pass returns, for each line that
    holds the pattern and each offset from -3 to 3 that stays inside the
    file, what [window_findings] gives for the pair.  For a comment line of
    the window the innermost loop adds exactly one "outdated" issue, naming
    the first word of the changed line that is longer than 2 characters and
    occurs in the comment, and adds nothing when there is no such word.  A
    comment three lines above the changed line in which [val] occurs, and
    no other word of the changed line, gets exactly one issue, naming
    [val]. *)
Theorem staleness_window_findings (lines : list string) (line : string) :
  (forall fs self text,
      fs (filename self) = Text text ->
      identify_outdated_comments fs self
      = Ok (flat_map (changed_findings (readlines text))
              (enumerate 0 (readlines text))))
  /\ (forall i offset acc,
        check_offset lines i line offset acc
        = Ok (acc ++ window_findings lines line (i + offset)))
  /\ (forall check_line j acc pre var post,
        findall_words line = pre ++ var :: post ->
        (forall w, w ∈ pre -> flags check_line w = false) ->
        flags check_line var = true ->
        flag_comment (findall_words line) check_line j acc
        = acc ++ [(j + 1, "outdated", outdated_msg var)])
  /\ (forall check_line j acc,
        (forall w, w ∈ findall_words line -> flags check_line w = false) ->
        flag_comment (findall_words line) check_line j acc = acc)
  /\ (forall (k : nat) c acc,
        lines !! k = Some c ->
        lines !! (k + 3)%nat = Some line ->
        search_changed line = true ->
        is_comment c = true ->
        (contains (strip c) "val" = true ->
         (forall w, w ∈ findall_words line -> w <> "val" ->
                    contains (strip c) w = false) ->
         check_offset lines (Z.of_nat (k + 3)) line (-3) acc
         = Ok (acc ++ [(Z.of_nat k + 1, "outdated", outdated_msg "val")]))
        /\ ((forall w, w ∈ findall_words line -> contains (strip c) w = false) ->
            check_offset lines (Z.of_nat (k + 3)) line (-3) acc = Ok acc)).
Proof.
  split; [|split; [|split; [|split]]].
  - intros fs self text Hf. apply identify_outdated_comments_found, Hf.
  - intros i offset acc. apply check_offset_findings.
  - intros check_line j acc pre var post Hw Hpre Hvar.
    rewrite flag_comment_find, Hw, (find_first _ _ _ _ Hpre Hvar). reflexivity.
  - intros check_line j acc Hnone.
    rewrite flag_comment_find, (find_nothing _ _ Hnone). apply app_nil_r.
  - intros k c acc Hk Hline Hs Hc.
    assert (Hw : forall found,
      find (flags (strip c)) (findall_words line) = found ->
      check_offset lines (Z.of_nat (k + 3)) line (-3) acc
      = Ok (acc ++ match found with
                   | Some var => [outdated_issue (Z.of_nat k) var]
                   | None => []
                   end)).
    { intros found <-. rewrite check_offset_findings. unfold window_findings.
      replace (Z.of_nat (k + 3) + -3) with (Z.of_nat k) by lia.
      pose proof (lookup_lt_Some _ _ _ Hk) as Hlt.
      destruct (Z.leb_spec 0 (Z.of_nat k)) as [_|?]; [|lia].
      destruct (Z.ltb_spec (Z.of_nat k) (Z.of_nat (length lines))) as [_|?];
        [|lia].
      cbn [andb]. rewrite Nat2Z.id, Hk, Hc. reflexivity. }
    split.
    + intros Hval Hothers. apply (Hw (Some "val")).
      apply find_only.
      * apply val_in_changed_line, Hs.
      * unfold flags. rewrite Hval. reflexivity.
      * intros w Hin Hne. unfold flags. rewrite (Hothers w Hin Hne). reflexivity.
    + intros Hnone. rewrite (Hw None), app_nil_r; [reflexivity|].
      apply find_nothing. intros w Hin. unfold flags.
      rewrite (Hnone w Hin). reflexivity.
Qed.

Lemma staleness_window_findings_witness :
  identify_outdated_comments (one_file "a.py" val_text)
    (mkAnalyzer "a.py" ∅ val_text (Module [] []))
  = Ok [(1, "outdated", outdated_msg "val")]
  /\ check_offset (readlines val_text) 3 ("result = val + 5" +:+ nl) (-3) []
     = Ok [(1, "outdated", outdated_msg "val")]
  /\ flag_comment (findall_words ("result = val + 5" +:+ nl)) "# nothing" 0 []
     = [].
Proof.
  pose proof (staleness_window_findings (readlines val_text)
                ("result = val + 5" +:+ nl)) as (Hall & _ & _ & Hnone & Hval).
  split; [|split].
  - apply (Hall (one_file "a.py" val_text)
             (mkAnalyzer "a.py" ∅ val_text (Module [] [])) val_text).
    reflexivity.
  - apply (proj1 (Hval 0%nat ("# scale val first" +:+ nl) [] eq_refl eq_refl
                    eq_refl eq_refl)).
    + reflexivity.
    + intros w Hw Hne. vm_compute in Hw.
      repeat (apply elem_of_cons in Hw as [->|Hw];
              [try reflexivity; congruence|]).
      inversion Hw.
  - apply (Hnone "# nothing" 0 []).
    intros w Hw. vm_compute in Hw.
    repeat (apply elem_of_cons in Hw as [->|Hw]; [reflexivity|]).
    inversion Hw.
Defined.

(** ** Construction *)

(** C6: constructing the analyzer raises if and only if the file cannot be
    read or its text does not parse; a missing file raises
    [FileNotFoundError], an unreadable one [PermissionError], and a text
    that does not parse [SyntaxError].  When the constructor raises, [main]
    prints nothing and exits with status 1; when it returns, the object
    holds the text read and the tree parsed from it. *)
Theorem constructor_raises_iff (ast_parse : string -> option node)
    (ast_dump : node -> result string) (fs : filesystem) (path : string)
    (guide : option (gmap string sg_value)) :
  ((exists e, __init__ ast_parse fs path guide = Raise e)
   <-> (forall text, fs path <> Text text)
       \/ (exists text, fs path = Text text /\ ast_parse text = None))
  /\ (fs path = Missing ->
      __init__ ast_parse fs path guide = Raise FileNotFoundError)
  /\ (fs path = Unreadable ->
      __init__ ast_parse fs path guide = Raise PermissionError)
  /\ (forall text,
        fs path = Text text -> ast_parse text = None ->
        __init__ ast_parse fs path guide = Raise SyntaxError)
  /\ (forall e,
        __init__ ast_parse fs path guide = Raise e ->
        main ast_parse ast_dump fs path guide = ([], 1))
  /\ (forall text t,
        fs path = Text text -> ast_parse text = Some t ->
        exists self,
          __init__ ast_parse fs path guide = Ok self
          /\ filename self = path /\ source_code self = text
          /\ tree self = t).
Proof.
  unfold main, __init__, open_read.
  destruct (fs path) as [| |text] eqn:Hf; cbn [bind].
  - repeat split; try discriminate; try reflexivity.
    + intros _. left. discriminate.
    + eauto.
  - repeat split; try discriminate; try reflexivity.
    + intros _. left. discriminate.
    + eauto.
  - destruct (ast_parse text) as [t|] eqn:Hp.
    + repeat split; try discriminate.
      * intros [e He]. discriminate.
      * intros [H|(text' & Ht & Hn)]; [destruct (H text); reflexivity|].
        injection Ht as <-. congruence.
      * intros text' Ht Hn. injection Ht as <-. congruence.
      * intros text' t' Ht Hs. injection Ht as <-.
        assert (t' = t) as -> by congruence. eexists. repeat split.
    + repeat split; try discriminate; try reflexivity.
      * intros _. right. eauto.
      * eauto.
      * intros text' t' Ht Hs. injection Ht as <-. congruence.
Qed.

Lemma constructor_raises_iff_witness :
  __init__ comment_parse (one_file "a.py" short_comment_text) "b.py" None
  = Raise FileNotFoundError
  /\ __init__ comment_parse (one_file "a.py" "def") "a.py" None
     = Raise SyntaxError
  /\ main comment_parse demo_dump (one_file "a.py" "def") "a.py" None = ([], 1)
  /\ exists self,
       __init__ comment_parse (one_file "a.py" short_comment_text) "a.py"
         (Some min_length_guide) = Ok self
       /\ filename self = "a.py" /\ source_code self = short_comment_text
       /\ tree self = Module [] [].
Proof.
  split; [|split; [|split]].
  - apply (proj1 (proj2 (constructor_raises_iff comment_parse demo_dump
                           (one_file "a.py" short_comment_text) "b.py" None))).
    reflexivity.
  - apply (proj1 (proj2 (proj2 (proj2 (constructor_raises_iff comment_parse
             demo_dump (one_file "a.py" "def") "a.py" None)))) "def");
      reflexivity.
  - apply (proj1 (proj2 (proj2 (proj2 (proj2 (constructor_raises_iff
             comment_parse demo_dump (one_file "a.py" "def") "a.py" None)))))
             SyntaxError).
    reflexivity.
  - apply (proj2 (proj2 (proj2 (proj2 (proj2 (constructor_raises_iff
             comment_parse demo_dump (one_file "a.py" short_comment_text)
             "a.py" (Some min_length_guide)))))) short_comment_text
             (Module [] [])); reflexivity.
Defined.

(** ** The detectors on a file that has not changed *)

Lemma for_each_ext {A S : Type} (f g : A -> S -> result S) (xs : list A)
    (s : S) :
  (forall x s, f x s = g x s) -> for_each f xs s = for_each g xs s.
Proof.
  intros H. revert s. induction xs as [|x xs IH]; intros s; simpl;
    [reflexivity|].
  rewrite H. destruct (g x s); simpl; [apply IH|reflexivity].
Qed.






(** ** The detectors and the file on disk *)

(** C8, as amended: what each detector returns depends on the object and on
    what the file at its path holds when the detector runs: two file systems
    that agree on that path give the same results, and the text kept at
    construction plays no part. *)
Theorem detectors_read_disk (ast_dump : node -> result string) (self : analyzer)
    (fs1 fs2 : filesystem) :
  fs1 (filename self) = fs2 (filename self) ->
  check_missing_comments ast_dump fs1 self
  = check_missing_comments ast_dump fs2 self
  /\ enforce_comment_style_consistency fs1 self
     = enforce_comment_style_consistency fs2 self
  /\ identify_outdated_comments fs1 self = identify_outdated_comments fs2 self
  /\ (forall text,
        let self' :=
          mkAnalyzer (filename self) (style_guide self) text (tree self) in
        check_missing_comments ast_dump fs1 self'
        = check_missing_comments ast_dump fs1 self
        /\ enforce_comment_style_consistency fs1 self'
           = enforce_comment_style_consistency fs1 self
        /\ identify_outdated_comments fs1 self'
           = identify_outdated_comments fs1 self).
Proof.
  intros H.
  assert (Ho : open_read fs1 (filename self) = open_read fs2 (filename self)).
  { unfold open_read. rewrite H. reflexivity. }
  split; [|split; [|split]].
  - unfold check_missing_comments. apply for_each_ext. intros n acc.
    destruct n; cbn [check_node]; try reflexivity.
    destruct (complex_if ast_dump n body) as [[|]|e]; cbn [bind];
      try reflexivity.
    rewrite Ho. reflexivity.
  - unfold enforce_comment_style_consistency. rewrite Ho. reflexivity.
  - unfold identify_outdated_comments. rewrite Ho. reflexivity.
  - intros text self'. subst self'. destruct self as [p g s t]. simpl.
    repeat split.
Qed.

Lemma detectors_read_disk_witness :
  enforce_comment_style_consistency (one_file "a.py" short_comment_text)
    comment_object
  = enforce_comment_style_consistency
      (fun p => if String.eqb p "b.py" then Text "# other" else
                  one_file "a.py" short_comment_text p)
      comment_object.
Proof.
  apply (proj1 (proj2 (detectors_read_disk demo_dump comment_object
           (one_file "a.py" short_comment_text)
           (fun p => if String.eqb p "b.py" then Text "# other" else
                       one_file "a.py" short_comment_text p)
           eq_refl))).
Defined.

(** C8 as stated fails: the object is built from a file holding a short
    comment; the style pass reports the comment when the file still holds
    it, and reports nothing once the file holds a longer comment, though the
    text read at construction and the style guide are the same. *)
Lemma snapshot_not_enough :
  __init__ comment_parse (one_file "a.py" short_comment_text) "a.py"
    (Some min_length_guide) = Ok comment_object
  /\ enforce_comment_style_consistency (one_file "a.py" short_comment_text)
       comment_object
     = Ok [(1, "length", "Comment is too short (min length: 10)")]
  /\ enforce_comment_style_consistency (one_file "a.py" long_comment_text)
       comment_object
     = Ok []
  /\ enforce_comment_style_consistency (one_file "a.py" short_comment_text)
       comment_object
     <> enforce_comment_style_consistency (one_file "a.py" long_comment_text)
          comment_object.
Proof. repeat split. discriminate. Qed.

(** ** A comment that holds the pattern *)

Lemma find_ext_in {A : Type} (f g : A -> bool) (l : list A) :
  (forall x, x ∈ l -> f x = g x) -> find f l = find g l.
Proof.
  intros H. induction l as [|x l IH]; simpl; [reflexivity|].
  rewrite (H x) by apply list_elem_of_here.
  rewrite IH; [reflexivity|].
  intros y Hy. apply H, list_elem_of_further, Hy.
Qed.

(** C9, as amended: a line whose trimmed text starts with the marker and
    which holds the pattern is a changed line and a comment of its own
    window, and the staleness pass reports it, naming the first word of the
    line that is longer than 2 characters; a file made of the one line
    [# result = val + 5] gets one issue, naming [result]. *)
Theorem comment_with_pattern_flagged (fs : filesystem) (self : analyzer)
    (text : string) :
  fs (filename self) = Text text ->
  (forall (k : nat) line,
      readlines text !! k = Some line ->
      is_comment line = true ->
      search_changed line = true ->
      exists var out,
        find (fun w => 2 <? len w) (findall_words line) = Some var
        /\ identify_outdated_comments fs self = Ok out
        /\ (Z.of_nat k + 1, "outdated", outdated_msg var) ∈ out)
  /\ (text = "# result = val + 5" +:+ nl ->
      identify_outdated_comments fs self
      = Ok [(1, "outdated", outdated_msg "result")]).
Proof.
  intros Hf. split.
  - intros k line Hk Hc Hs.
    assert (Hfind : find (flags (strip line)) (findall_words line)
                    = find (fun w => 2 <? len w) (findall_words line)).
    { apply find_ext_in. intros w Hw. unfold flags.
      rewrite (word_in_stripped line w Hw). reflexivity. }
    destruct (find (fun w => 2 <? len w) (findall_words line)) as [var|]
      eqn:Hlong.
    + exists var. eexists. split; [reflexivity|].
      split; [apply identify_outdated_comments_found, Hf|].
      apply list_elem_of_In, in_flat_map.
      exists (Z.of_nat k, line). split.
      * apply list_elem_of_In.
        apply (enumerate_lookup (readlines text) 0 k line Hk).
      * unfold changed_findings. rewrite Hs. apply in_flat_map.
        exists 0. split; [unfold window; simpl; tauto|].
        unfold window_findings. rewrite Z.add_0_r.
        pose proof (lookup_lt_Some _ _ _ Hk) as Hlt.
        destruct (Z.leb_spec 0 (Z.of_nat k)) as [_|?]; [|lia].
        destruct (Z.ltb_spec (Z.of_nat k)
                    (Z.of_nat (length (readlines text)))) as [_|?]; [|lia].
        cbn [andb]. rewrite Nat2Z.id, Hk, Hc, Hfind. left. reflexivity.
    + exfalso.
      pose proof (find_none _ _ Hlong "val"
                    (proj1 (list_elem_of_In _ _) (val_in_changed_line line Hs)))
        as Hv.
      discriminate.
  - intros ->. rewrite (identify_outdated_comments_found fs self _ Hf).
    reflexivity.
Qed.

Lemma comment_with_pattern_flagged_witness :
  identify_outdated_comments (one_file "a.py" ("# result = val + 5" +:+ nl))
    (mkAnalyzer "a.py" ∅ ("# result = val + 5" +:+ nl) (Module [] []))
  = Ok [(1, "outdated", outdated_msg "result")].
Proof.
  apply (proj2 (comment_with_pattern_flagged
                  (one_file "a.py" ("# result = val + 5" +:+ nl))
                  (mkAnalyzer "a.py" ∅ ("# result = val + 5" +:+ nl)
                     (Module [] []))
                  ("# result = val + 5" +:+ nl) eq_refl)).
  reflexivity.
Defined.

(** C9 as stated fails on a file made of the line
    [# old result = val + 5]: the issue names [old], and no issue names
    [result]. *)
Lemma flagged_word_not_result :
  is_comment pattern_comment_text = true
  /\ search_changed pattern_comment_text = true
  /\ identify_outdated_comments (one_file "a.py" pattern_comment_text)
       (mkAnalyzer "a.py" ∅ pattern_comment_text (Module [] []))
     = Ok [(1, "outdated", outdated_msg "old")]
  /\ identify_outdated_comments (one_file "a.py" pattern_comment_text)
       (mkAnalyzer "a.py" ∅ pattern_comment_text (Module [] []))
     <> Ok [(1, "outdated", outdated_msg "result")].
Proof. repeat split. discriminate. Qed.

(** ** The order of the missing comments *)

(** C10: [ast.walk] yields the tree level by level, every node of a
    nesting depth before any deeper node, and the list returned by
    [check_missing_comments] is what the nodes add, in that order; the list
    is the same whenever the input is.  On a function with a nested
    function, followed by another function, all without docstrings, the
    list is not in ascending order of line numbers. *)
Theorem missing_comments_breadth_first (ast_dump : node -> result string)
    (fs : filesystem) (self : analyzer) :
  walk (tree self) = breadth_first (tree self)
  /\ (forall out,
        check_missing_comments ast_dump fs self = Ok out ->
        out = flat_map (findings ast_dump fs self)
                (breadth_first (tree self)))
  /\ (forall out1 out2,
        check_missing_comments ast_dump fs self = Ok out1 ->
        check_missing_comments ast_dump fs self = Ok out2 -> out1 = out2)
  /\ (tree self = nested_defs ->
      check_missing_comments ast_dump fs self
      = Ok [(1, "function", "Missing docstring for function: f");
            (4, "function", "Missing docstring for function: h");
            (2, "function", "Missing docstring for function: g")]
      /\ forall out,
           check_missing_comments ast_dump fs self = Ok out ->
           ascending (issue_lines out) = false).
Proof.
  split; [|split; [|split]].
  - apply walk_levels.
  - intros out H. rewrite <- walk_levels.
    apply check_missing_comments_found, H.
  - intros out1 out2 H1 H2. congruence.
  - intros Ht.
    assert (H : check_missing_comments ast_dump fs self
                = Ok [(1, "function", "Missing docstring for function: f");
                      (4, "function", "Missing docstring for function: h");
                      (2, "function", "Missing docstring for function: g")]).
    { unfold check_missing_comments. rewrite Ht. reflexivity. }
    split; [exact H|].
    intros out Ho. rewrite H in Ho. injection Ho as <-. reflexivity.
Qed.

Lemma missing_comments_breadth_first_witness :
  ascending
    (issue_lines
       [(1, "function", "Missing docstring for function: f");
        (4, "function", "Missing docstring for function: h");
        (2, "function", "Missing docstring for function: g")]) = false.
Proof.
  pose proof (missing_comments_breadth_first demo_dump (one_file "a.py" nested_defs_text)
                nested_defs_object) as (_ & _ & _ & H).
  destruct (H eq_refl) as [Hout Hasc].
  apply (Hasc _ Hout).
Defined.

(** ** Further properties: the walk *)

Lemma node_size_in_forest (q : list node) (n : node) :
  n ∈ q -> (node_size n <= forest_size q)%nat.
Proof.
  induction q as [|m q IH]; intros Hin; [inversion Hin|].
  apply elem_of_cons in Hin as [->|Hin]; simpl; [lia|].
  specialize (IH Hin). lia.
Qed.

Lemma flat_map_ext_in {A B : Type} (f g : A -> list B) (l : list A) :
  (forall x, x ∈ l -> f x = g x) -> flat_map f l = flat_map g l.
Proof.
  intros H. induction l as [|x l IH]; simpl; [reflexivity|].
  rewrite (H x) by apply list_elem_of_here. f_equal.
  apply IH. intros y Hy. apply H, list_elem_of_further, Hy.
Qed.

Lemma preorder_loop_enough (d d' : nat) (n : node) :
  (node_size n <= d)%nat -> (node_size n <= d')%nat ->
  preorder_loop d n = preorder_loop d' n.
Proof.
  revert d' n. induction d as [|d IH]; intros d' n Hd Hd'.
  - pose proof (node_size_pos n). lia.
  - destruct d' as [|d']; [pose proof (node_size_pos n); lia|].
    simpl. f_equal. apply flat_map_ext_in. intros c Hc.
    pose proof (node_size_in_forest _ _ Hc) as Hle.
    rewrite node_size_children in Hd, Hd'.
    apply IH; lia.
Qed.

Lemma preorder_unfold (n : node) :
  preorder n = n :: flat_map preorder (iter_child_nodes n).
Proof.
  unfold preorder at 1. rewrite node_size_children. simpl. f_equal.
  apply flat_map_ext_in. intros c Hc.
  apply preorder_loop_enough; [|lia].
  apply node_size_in_forest, Hc.
Qed.

Lemma walk_loop_preorder (turns : nat) (q : list node) :
  (forest_size q <= turns)%nat ->
  walk_loop turns q ≡ₚ flat_map preorder q.
Proof.
  revert q. induction turns as [|turns IH]; intros q Hle.
  - destruct q as [|n q]; [reflexivity|].
    simpl in Hle. pose proof (node_size_pos n). lia.
  - destruct q as [|n q]; [reflexivity|]. simpl.
    rewrite preorder_unfold. simpl. constructor.
    rewrite IH.
    + rewrite flat_map_app. apply Permutation_app_comm.
    + simpl in Hle. rewrite forest_size_app.
      rewrite node_size_children in Hle. lia.
Qed.

Lemma walk_loop_length (turns : nat) (q : list node) :
  (forest_size q <= turns)%nat -> length (walk_loop turns q) = forest_size q.
Proof.
  revert q. induction turns as [|turns IH]; intros q Hle.
  - destruct q as [|n q]; [reflexivity|].
    simpl in Hle. pose proof (node_size_pos n). lia.
  - destruct q as [|n q]; [reflexivity|]. simpl in *.
    rewrite node_size_children in *.
    rewrite IH; rewrite forest_size_app; lia.
Qed.

Lemma findings_at_most_one (ast_dump : node -> result string) (fs : filesystem)
    (self : analyzer) (n : node) :
  (length (findings ast_dump fs self n) <= 1)%nat.
Proof.
  unfold findings.
  destruct n as [b t|l nm a b d r tp|l nm a b d r tp|l nm bs ks b d tp
                |l t b o|v|c|c ch]; cbn [check_node]; try (simpl; lia).
  1-3: match goal with |- context [negb ?b] => destruct b end; simpl; lia.
  destruct (complex_if ast_dump t b) as [[|]|e]; cbn [bind];
    [|simpl; lia|simpl; lia].
  destruct (1 <? l); [|simpl; lia].
  destruct (open_read fs (filename self)) as [text|e]; cbn [bind];
    [|simpl; lia].
  destruct (0 <=? l - 2); [|simpl; lia].
  destruct (getitem (readlines text) (l - 2)) as [prev|e]; cbn [bind];
    [|simpl; lia].
  destruct (negb (startswith (strip prev) "#")); simpl; lia.
Qed.

(** X1: the walk visits every node of the tree once, so the list returned
    by [check_missing_comments] holds the same issues, the same number of
    times, as a depth-first pre-order traversal would give, and no more
    issues than the tree has nodes. *)
Theorem missing_comments_any_order (ast_dump : node -> result string)
    (fs : filesystem) (self : analyzer) (out : list issue) :
  check_missing_comments ast_dump fs self = Ok out ->
  walk (tree self) ≡ₚ preorder (tree self)
  /\ length (walk (tree self)) = node_size (tree self)
  /\ out ≡ₚ flat_map (findings ast_dump fs self) (preorder (tree self))
  /\ (length out <= node_size (tree self))%nat.
Proof.
  intros H.
  assert (Hp : walk (tree self) ≡ₚ preorder (tree self)).
  { unfold walk. rewrite walk_loop_preorder by (simpl; lia).
    simpl. rewrite app_nil_r. reflexivity. }
  assert (Hl : length (walk (tree self)) = node_size (tree self)).
  { unfold walk. rewrite walk_loop_length; simpl; lia. }
  apply check_missing_comments_found in H. subst out.
  repeat split; try assumption.
  - apply Permutation_flat_map, Hp.
  - rewrite <- Hl. clear.
    induction (walk (tree self)) as [|n l IH]; simpl; [lia|].
    rewrite length_app.
    pose proof (findings_at_most_one ast_dump fs self n). lia.
Qed.

Lemma missing_comments_any_order_witness :
  walk nested_defs ≡ₚ preorder nested_defs
  /\ length (walk nested_defs) = 9%nat.
Proof.
  pose proof (missing_comments_any_order demo_dump
                (one_file "a.py" nested_defs_text) nested_defs_object _
                eq_refl) as (Hp & Hl & _).
  split; [exact Hp|exact Hl].
Defined.

(** ** Further properties: the missing-documentation pass *)

Lemma findings_origin (ast_dump : node -> result string) (fs : filesystem)
    (self : analyzer) (n : node) (i : issue) :
  i ∈ findings ast_dump fs self n ->
  (is_definition n = true /\ _extract_docstring n = EmptyString
   /\ missing_issue n = [i])
  \/ (exists lineno test body orelse,
        n = If lineno test body orelse
        /\ complex_if ast_dump test body = Ok true
        /\ i = (lineno, "complex logic", complex_msg)).
Proof.
  unfold findings. intros Hin.
  destruct n as [b t|l nm a b d r tp|l nm a b d r tp|l nm bs ks b d tp
                |l t b o|v|c|c ch]; cbn [check_node] in Hin;
    try (inversion Hin; fail).
  1-3: left; match type of Hin with
             | context [truthy ?s] => destruct s eqn:Hs
             end; simpl in Hin; [|inversion Hin];
       apply list_elem_of_singleton in Hin as ->;
       repeat split; exact Hs.
  right. destruct (complex_if ast_dump t b) as [[|]|e] eqn:Hc;
    cbn [bind] in Hin; [|inversion Hin|inversion Hin].
  exists l, t, b, o. split; [reflexivity|split; [exact Hc|]].
  destruct (1 <? l).
  - destruct (open_read fs (filename self)) as [text|e]; cbn [bind] in Hin;
      [|inversion Hin].
    destruct (0 <=? l - 2); [|inversion Hin].
    destruct (getitem (readlines text) (l - 2)) as [prev|e];
      cbn [bind] in Hin; [|inversion Hin].
    destruct (negb (startswith (strip prev) "#")); [|inversion Hin].
    apply list_elem_of_singleton in Hin. exact Hin.
  - apply list_elem_of_singleton in Hin. exact Hin.
Qed.

Lemma findings_definition (ast_dump : node -> result string) (fs : filesystem)
    (self : analyzer) (n : node) :
  is_definition n = true -> _extract_docstring n = EmptyString ->
  findings ast_dump fs self n = missing_issue n.
Proof.
  intros Hd He. unfold findings.
  destruct n; try discriminate; cbn [check_node]; rewrite He; reflexivity.
Qed.

(** X2: when [check_missing_comments] returns, an issue whose category is
    not "complex logic" is in the list if and only if the tree has a
    function, async function or class definition for which the docstring
    helper yields the empty string and whose line, category and name the
    issue carries. *)
Theorem definition_issue_iff (ast_dump : node -> result string) (fs : filesystem)
    (self : analyzer) (out : list issue) (i : issue) :
  check_missing_comments ast_dump fs self = Ok out ->
  category i <> "complex logic" ->
  i ∈ out
  <-> exists n, n ∈ walk (tree self) /\ is_definition n = true
                /\ _extract_docstring n = EmptyString
                /\ missing_issue n = [i].
Proof.
  intros Hout Hcat. apply check_missing_comments_found in Hout. subst out.
  rewrite list_elem_of_In, in_flat_map. split.
  - intros (n & Hn & Hi). apply list_elem_of_In in Hn, Hi.
    apply findings_origin in Hi
      as [(Hd & He & Hm)|(l & t & b & o & _ & _ & ->)].
    + exists n. auto.
    + exfalso. apply Hcat. reflexivity.
  - intros (n & Hn & Hd & He & Hm). exists n.
    split; [apply list_elem_of_In, Hn|].
    rewrite (findings_definition _ _ _ _ Hd He), Hm. left. reflexivity.
Qed.

Lemma definition_issue_iff_witness :
  (2, "function", "Missing docstring for function: g")
    ∈ [(1, "function", "Missing docstring for function: f");
       (4, "function", "Missing docstring for function: h");
       (2, "function", "Missing docstring for function: g")]
  <-> exists n, n ∈ walk nested_defs /\ is_definition n = true
                /\ _extract_docstring n = EmptyString
                /\ missing_issue n
                   = [(2, "function", "Missing docstring for function: g")].
Proof.
  apply (definition_issue_iff demo_dump (one_file "a.py" nested_defs_text)
           nested_defs_object); [reflexivity|discriminate].
Defined.

Lemma check_node_no_read (ast_dump : node -> result string)
    (fs fs' : filesystem) (self : analyzer) (n : node) (acc : list issue) :
  reads_file ast_dump n = false ->
  check_node ast_dump fs' self n acc = check_node ast_dump fs self n acc
  /\ (dump_raises ast_dump n = false ->
      exists acc', check_node ast_dump fs self n acc = Ok acc').
Proof.
  intros Hr.
  destruct n as [b t|l nm a b d r tp|l nm a b d r tp|l nm bs ks b d tp
                |l t b o|v|c|c ch]; cbn [check_node]; eauto.
  1-3: match goal with |- context [negb ?b] => destruct b end; eauto.
  cbn [reads_file dump_raises] in *.
  destruct (complex_if ast_dump t b) as [[|]|e]; cbn [bind].
  - simpl in Hr. rewrite Hr. eauto.
  - eauto.
  - split; [reflexivity|discriminate].
Qed.

Lemma check_node_read_fails (ast_dump : node -> result string)
    (fs : filesystem) (self : analyzer) (n : node) (acc : list issue)
    (e : exn) :
  reads_file ast_dump n = true ->
  open_read fs (filename self) = Raise e ->
  check_node ast_dump fs self n acc = Raise e.
Proof.
  intros Hr Ho. destruct n; try discriminate. cbn [reads_file] in Hr.
  cbn [check_node].
  destruct (complex_if ast_dump n body) as [[|]|e']; try discriminate.
  cbn [bind]. simpl in Hr. rewrite Hr, Ho. reflexivity.
Qed.

Lemma for_each_file_access (ast_dump : node -> result string)
    (fs : filesystem) (self : analyzer) (l : list node) (acc : list issue) :
  (existsb (reads_file ast_dump) l = false ->
   (forall fs',
       for_each (check_node ast_dump fs' self) l acc
       = for_each (check_node ast_dump fs self) l acc)
   /\ (forallb (fun n => negb (dump_raises ast_dump n)) l = true ->
       exists out, for_each (check_node ast_dump fs self) l acc = Ok out))
  /\ (existsb (reads_file ast_dump) l = true ->
      forallb (fun n => negb (dump_raises ast_dump n)) l = true ->
      forall e,
        open_read fs (filename self) = Raise e ->
        for_each (check_node ast_dump fs self) l acc = Raise e).
Proof.
  revert acc. induction l as [|n l IH]; intros acc.
  - split; [|discriminate]. intros _. simpl. split; [reflexivity|eauto].
  - simpl. destruct (reads_file ast_dump n) eqn:Hr; simpl.
    + split; [discriminate|]. intros _ _ e Ho.
      rewrite (check_node_read_fails _ _ _ _ _ e Hr Ho). reflexivity.
    + split.
      * intros Hl. split.
        -- intros fs'.
           destruct (check_node_no_read ast_dump fs fs' self n acc Hr)
             as [-> _].
           destruct (check_node ast_dump fs self n acc) as [acc'|e];
             cbn [bind]; [|reflexivity].
           apply (proj1 (IH acc')), Hl.
        -- intros Hd. apply andb_true_iff in Hd as [Hn Hd].
           apply negb_true_iff in Hn.
           destruct (check_node_no_read ast_dump fs fs self n acc Hr)
             as [_ Hok].
           destruct (Hok Hn) as [acc' ->]. cbn [bind].
           apply (proj1 (IH acc')); assumption.
      * intros Hl Hd e Ho. apply andb_true_iff in Hd as [Hn Hd].
        apply negb_true_iff in Hn.
        destruct (check_node_no_read ast_dump fs fs self n acc Hr)
          as [_ Hok].
        destruct (Hok Hn) as [acc' ->]. cbn [bind].
        apply (proj2 (IH acc')); assumption.
Qed.

(** X3: [check_missing_comments] opens the file only for a complex [if]
    below the first line.  On a tree without one no file system changes
    what it gives, even when the file is gone, and it returns a list when
    the dump returns on the tests it is applied to; on a tree with one, when
    the dump returns on those tests, it raises [FileNotFoundError] when the
    file is missing and [PermissionError] when it cannot be read. *)
Theorem missing_pass_file_access (ast_dump : node -> result string)
    (fs : filesystem) (self : analyzer) :
  (existsb (reads_file ast_dump) (walk (tree self)) = false ->
   (forall fs',
       check_missing_comments ast_dump fs' self
       = check_missing_comments ast_dump fs self)
   /\ (dumps_return ast_dump (tree self) = true ->
       exists out, check_missing_comments ast_dump fs self = Ok out))
  /\ (existsb (reads_file ast_dump) (walk (tree self)) = true ->
      dumps_return ast_dump (tree self) = true ->
      (fs (filename self) = Missing ->
       check_missing_comments ast_dump fs self = Raise FileNotFoundError)
      /\ (fs (filename self) = Unreadable ->
          check_missing_comments ast_dump fs self = Raise PermissionError)).
Proof.
  unfold check_missing_comments, dumps_return.
  destruct (for_each_file_access ast_dump fs self (walk (tree self)) [])
    as [Hno Hyes].
  split; [exact Hno|].
  intros Hr Hd. split; intros Hf; apply (Hyes Hr Hd);
    unfold open_read; rewrite Hf; reflexivity.
Qed.

Lemma missing_pass_file_access_witness :
  (exists out,
      check_missing_comments demo_dump (fun _ => Missing) nested_defs_object
      = Ok out)
  /\ check_missing_comments demo_dump (fun _ => Missing) nested_if_object
     = Raise FileNotFoundError.
Proof.
  split.
  - apply (proj2 (proj1 (missing_pass_file_access demo_dump (fun _ => Missing)
                           nested_defs_object) eq_refl) eq_refl).
  - apply (proj1 (proj2 (missing_pass_file_access demo_dump (fun _ => Missing)
                           nested_if_object) eq_refl eq_refl) eq_refl).
Defined.





(** ** Further properties: the style pass *)


(** The issues of one line stand on that line: none, one or two. *)
Lemma style_issues_lines (sg : gmap string sg_value) (i : Z)
    (line : string) :
  (is_comment line = false /\ style_issues sg (i, line) = [])
  \/ (is_comment line = true
      /\ (issue_lines (style_issues sg (i, line)) = []
          \/ issue_lines (style_issues sg (i, line)) = [i]
          \/ issue_lines (style_issues sg (i, line)) = [i; i])).
Proof.
  unfold style_issues. destruct (is_comment line); [right|left; auto].
  split; [reflexivity|].
  destruct (sg !! "min_length") as [v|];
    [destruct (number v) as [[below text]|];
     [destruct (below (len (comment_body line)))|]|];
    destruct (sg !! "required_prefix") as [[m'|p|b'|x' t'| | |]|];
    try destruct (startswith (comment_body line) p);
    simpl; auto.
Qed.


Lemma issue_lines_app (a b : list issue) :
  issue_lines (a ++ b) = issue_lines a ++ issue_lines b.
Proof. apply map_app. Qed.

Lemma style_lines_from (sg : gmap string sg_value) (start : Z)
    (lines : list string) (l : Z) :
  l ∈ issue_lines (flat_map (style_issues sg) (enumerate start lines)) ->
  exists (k : nat) line,
    l = start + Z.of_nat k /\ lines !! k = Some line
    /\ is_comment line = true.
Proof.
  revert start. induction lines as [|line lines IH]; intros start H;
    [inversion H|].
  cbn [enumerate flat_map] in H. rewrite issue_lines_app in H.
  apply elem_of_app in H as [H|H].
  - exists O, line.
    destruct (style_issues_lines sg start line) as [[_ E]|[Hc E]].
    + rewrite E in H. inversion H.
    + destruct E as [E|[E|E]]; rewrite E in H.
      * inversion H.
      * apply list_elem_of_singleton in H as ->.
        split; [lia|split; [reflexivity|exact Hc]].
      * apply elem_of_cons in H as [->|H];
          [|apply list_elem_of_singleton in H as ->];
          (split; [lia|split; [reflexivity|exact Hc]]).
  - destruct (IH (start + 1) H) as (k & ln & -> & Hk & Hc).
    exists (S k), ln. split; [lia|split; [exact Hk|exact Hc]].
Qed.







Lemma lstrip_head (s r : string) (c : ascii) :
  lstrip s = String c r -> isspace c = false.
Proof.
  induction s as [|x s IH]; simpl; [discriminate|].
  destruct (isspace x) eqn:Ex; [exact IH|].
  intros H. injection H as <- _. exact Ex.
Qed.

Lemma strip_head (s r : string) (c : ascii) :
  strip s = String c r -> isspace c = false.
Proof.
  unfold strip. destruct (lstrip s) as [|x t] eqn:E; simpl; [discriminate|].
  destruct (isspace x && negb (truthy (rstrip t))); [discriminate|].
  intros H. injection H as <- _. apply (lstrip_head s t x E).
Qed.

Lemma startswith_nil (s : string) : startswith s EmptyString = true.
Proof. reflexivity. Qed.

(** X7: degenerate options.  A [min_length] of zero or less never gives a
    "length" issue and an empty [required_prefix] never gives a "prefix"
    issue; a [required_prefix] that starts with a whitespace character gives
    a "prefix" issue on every comment line, since the comment text is
    trimmed before it is compared. *)
Theorem degenerate_options (self : analyzer) (i : Z) (line : string)
    (acc acc' : list issue) :
  style_line self (i, line) acc = Ok acc' ->
  (forall m message,
      style_guide self !! "min_length" = Some (SInt m) -> m <= 0 ->
      (i, "length", message) ∈ acc' -> (i, "length", message) ∈ acc)
  /\ (forall message,
        style_guide self !! "required_prefix" = Some (SStr EmptyString) ->
        (i, "prefix", message) ∈ acc' -> (i, "prefix", message) ∈ acc)
  /\ (forall c p,
        style_guide self !! "required_prefix" = Some (SStr (String c p)) ->
        isspace c = true -> is_comment line = true ->
        (i, "prefix",
         "Comment does not start with required prefix: " +:+ String c p)
          ∈ acc').
Proof.
  rewrite style_line_cases. cbn [snd].
  destruct (is_comment line && guide_raises (style_guide self));
    [discriminate|].
  intros H. injection H as <-. unfold style_issues.
  split; [|split].
  - intros m message Hm Hle Hin. rewrite Hm in Hin. cbn [number] in Hin.
    assert (Hlen : (len (comment_body line) <? m) = false).
    { apply Z.ltb_ge. unfold len. lia. }
    rewrite Hlen in Hin. cbn [app] in Hin.
    apply elem_of_app in Hin as [Hin|Hin]; [exact Hin|].
    destruct (is_comment line); [|inversion Hin].
    destruct (style_guide self !! "required_prefix") as [[m'|p|b|x t| | |]|];
      try (inversion Hin; fail).
    destruct (startswith (comment_body line) p); [inversion Hin|].
    apply list_elem_of_singleton in Hin. discriminate.
  - intros message Hp Hin. rewrite Hp, startswith_nil in Hin.
    apply elem_of_app in Hin as [Hin|Hin]; [exact Hin|].
    destruct (is_comment line); [|inversion Hin].
    rewrite app_nil_r in Hin.
    destruct (style_guide self !! "min_length") as [v|]; [|inversion Hin].
    destruct (number v) as [[below text]|]; [|inversion Hin].
    destruct (below (len (comment_body line))); [|inversion Hin].
    apply list_elem_of_singleton in Hin. discriminate.
  - intros c p Hp Hc Hcomment. rewrite Hp, Hcomment.
    assert (Hs : startswith (comment_body line) (String c p) = false).
    { unfold comment_body.
      destruct (strip (default EmptyString (text_after "#" line)))
        as [|x r] eqn:E; [reflexivity|].
      apply strip_head in E. simpl.
      destruct (Ascii.eqb_spec x c) as [->|]; [congruence|reflexivity]. }
    rewrite Hs. apply elem_of_app. right. apply elem_of_app. right.
    apply list_elem_of_here.
Qed.

Lemma degenerate_options_witness :
  (3, "prefix", "Comment does not start with required prefix:  TODO")
    ∈ [(3, "prefix", "Comment does not start with required prefix:  TODO")].
Proof.
  assert (H : style_line
                (mkAnalyzer "a.py" {[ "required_prefix" := SStr " TODO" ]}
                   short_comment_text (Module [] []))
                (3, "#  TODO later") []
              = Ok [(3, "prefix",
                     "Comment does not start with required prefix:  TODO")]).
  { vm_compute. reflexivity. }
  apply (proj2 (proj2 (degenerate_options _ _ _ _ _ H)) " "%char "TODO");
    reflexivity.
Defined.

Lemma lstrip_spaces (ws s : string) :
  all_chars isspace ws = true -> lstrip (ws +:+ s) = lstrip s.
Proof.
  induction ws as [|c ws IH]; intros H; [reflexivity|].
  simpl in H. apply andb_true_iff in H as [Hc Hws].
  rewrite sapp_cons. simpl. rewrite Hc. apply IH, Hws.
Qed.

Lemma text_after_spaces (ws s : string) :
  all_chars isspace ws = true ->
  text_after "#" (ws +:+ s) = text_after "#" s.
Proof.
  induction ws as [|c ws IH]; intros H; [reflexivity|].
  simpl in H. apply andb_true_iff in H as [Hc Hws].
  rewrite sapp_cons. simpl.
  rewrite (isspace_not_eq c "#" Hc eq_refl). apply IH, Hws.
Qed.

Lemma rstrip_spaces (s ws : string) :
  all_chars isspace ws = true -> rstrip (s +:+ ws) = rstrip s.
Proof.
  intros H. induction s as [|c s IH].
  - rewrite sapp_nil_l. induction ws as [|x ws IHw]; [reflexivity|].
    simpl in H. apply andb_true_iff in H as [Hx Hws].
    simpl. rewrite (IHw Hws), Hx. reflexivity.
  - rewrite sapp_cons. simpl. rewrite IH. reflexivity.
Qed.

(** X8: white space before and after a line, its indentation and what
    follows the text up to and with the newline, never changes what the
    style pass does on the line. *)
Theorem style_line_whitespace (self : analyzer) (i : Z) (line ws : string)
    (acc : list issue) :
  all_chars isspace ws = true ->
  style_line self (i, ws +:+ line) acc = style_line self (i, line) acc
  /\ style_line self (i, line +:+ ws) acc = style_line self (i, line) acc.
Proof.
  intros Hws. split.
  - assert (H1 : strip (rstrip (ws +:+ line)) = strip (rstrip line)).
    { rewrite !strip_rstrip. unfold strip. rewrite lstrip_spaces by exact Hws.
      reflexivity. }
    assert (H2 : getitem (split1 "#" (rstrip (ws +:+ line))) 1
                 = getitem (split1 "#" (rstrip line)) 1).
    { rewrite !split1_text_after, !text_after_rstrip,
        text_after_spaces by exact Hws. reflexivity. }
    unfold style_line. rewrite H1, H2. reflexivity.
  - unfold style_line. rewrite rstrip_spaces by exact Hws. reflexivity.
Qed.

Lemma style_line_whitespace_witness :
  style_line comment_object (1, "    " +:+ "# ok") []
  = style_line comment_object (1, "# ok") []
  /\ style_line comment_object (1, "# ok" +:+ ("  " +:+ nl)) []
     = style_line comment_object (1, "# ok") [].
Proof.
  split.
  - apply (proj1 (style_line_whitespace comment_object 1 "# ok" "    " []
                    eq_refl)).
  - apply (proj2 (style_line_whitespace comment_object 1 "# ok"
                    ("  " +:+ nl) [] eq_refl)).
Defined.

(** ** Further properties: the staleness pass *)

Lemma enumerate_elem {A : Type} (xs : list A) (start z : Z) (x : A) :
  (z, x) ∈ enumerate start xs
  <-> exists k : nat, z = start + Z.of_nat k /\ xs !! k = Some x.
Proof.
  split.
  - revert start. induction xs as [|y xs IH]; intros start H;
      [inversion H|].
    simpl in H. apply elem_of_cons in H as [Heq|Hin].
    + injection Heq as -> ->. exists O. split; [lia|reflexivity].
    + destruct (IH _ Hin) as (k & -> & Hk). exists (S k).
      split; [lia|exact Hk].
  - intros (k & -> & Hk). apply enumerate_lookup, Hk.
Qed.

Lemma window_elem (offset : Z) : offset ∈ window <-> -3 <= offset <= 3.
Proof.
  unfold window. rewrite !elem_of_cons, elem_of_nil. lia.
Qed.

Lemma window_findings_elem (lines : list string) (line : string) (z : Z)
    (iss : issue) :
  iss ∈ window_findings lines line z
  <-> exists (j : nat) c var,
        z = Z.of_nat j /\ lines !! j = Some c /\ is_comment c = true
        /\ find (flags (strip c)) (findall_words line) = Some var
        /\ iss = outdated_issue z var.
Proof.
  unfold window_findings. split.
  - destruct (Z.leb_spec 0 z) as [H0|Hneg]; [|intros H; inversion H].
    destruct (z <? Z.of_nat (length lines)); cbn [andb];
      [|intros H; inversion H].
    destruct (lines !! Z.to_nat z) as [c|] eqn:Hc; [|intros H; inversion H].
    destruct (is_comment c) eqn:Hi; [|intros H; inversion H].
    destruct (find (flags (strip c)) (findall_words line)) as [var|] eqn:Hf;
      [|intros H; inversion H].
    intros H. apply list_elem_of_singleton in H as ->.
    exists (Z.to_nat z), c, var. repeat split; try assumption. lia.
  - intros (j & c & var & -> & Hc & Hi & Hf & ->).
    pose proof (lookup_lt_Some _ _ _ Hc) as Hlt.
    destruct (Z.leb_spec 0 (Z.of_nat j)) as [_|?]; [|lia].
    destruct (Z.ltb_spec (Z.of_nat j) (Z.of_nat (length lines))) as [_|?];
      [|lia].
    cbn [andb]. rewrite Nat2Z.id, Hc, Hi, Hf. apply list_elem_of_here.
Qed.

(** The issues of the staleness pass: one for each changed line and each
    comment line at most three lines away in which a word of the changed
    line, longer than two characters, occurs. *)
Lemma staleness_member (lines : list string) (iss : issue) :
  iss ∈ flat_map (changed_findings lines) (enumerate 0 lines)
  <-> exists (i j : nat) line c var,
        lines !! i = Some line /\ search_changed line = true
        /\ lines !! j = Some c /\ is_comment c = true
        /\ (i <= j + 3)%nat /\ (j <= i + 3)%nat
        /\ find (flags (strip c)) (findall_words line) = Some var
        /\ iss = outdated_issue (Z.of_nat j) var.
Proof.
  rewrite list_elem_of_In, in_flat_map. split.
  - intros ([z line] & Hil & Hin).
    apply list_elem_of_In, enumerate_elem in Hil as (i & -> & Hi).
    unfold changed_findings in Hin.
    destruct (search_changed line) eqn:Hs; [|destruct Hin].
    apply in_flat_map in Hin as (offset & Ho & Hin).
    apply list_elem_of_In, window_elem in Ho.
    apply list_elem_of_In, window_findings_elem in Hin
      as (j & c & var & Hj & Hc & Hcom & Hf & ->).
    exists i, j, line, c, var. rewrite Hj.
    repeat split; try assumption; lia.
  - intros (i & j & line & c & var & Hi & Hs & Hc & Hcom & H1 & H2 & Hf & ->).
    exists (Z.of_nat i, line). split.
    + apply list_elem_of_In. apply (enumerate_lookup lines 0 i line Hi).
    + unfold changed_findings. rewrite Hs. apply in_flat_map.
      exists (Z.of_nat j - Z.of_nat i). split.
      * apply list_elem_of_In, window_elem. lia.
      * apply list_elem_of_In, window_findings_elem.
        exists j, c, var.
        replace (Z.of_nat i + (Z.of_nat j - Z.of_nat i)) with (Z.of_nat j)
          by lia.
        repeat split; assumption.
Qed.

(** X9: on a readable file the staleness pass reports exactly the pairs of
    a line that holds the pattern and a comment line at most three lines
    away in which a word of the former occurs that is longer than two
    characters; the issue stands on the comment line and names the first
    such word.  Every issue is an "outdated" issue on a line of the file. *)
Theorem outdated_issue_origin (fs : filesystem) (self : analyzer)
    (text : string) (out : list issue) :
  fs (filename self) = Text text ->
  identify_outdated_comments fs self = Ok out ->
  (forall iss,
      iss ∈ out
      <-> exists (i j : nat) line c var,
            readlines text !! i = Some line /\ search_changed line = true
            /\ readlines text !! j = Some c /\ is_comment c = true
            /\ (i <= j + 3)%nat /\ (j <= i + 3)%nat
            /\ find (flags (strip c)) (findall_words line) = Some var
            /\ iss = (Z.of_nat j + 1, "outdated", outdated_msg var))
  /\ (forall iss,
        iss ∈ out ->
        category iss = "outdated"
        /\ 1 <= iss.1.1 <= Z.of_nat (length (readlines text))).
Proof.
  intros Hf Hout.
  rewrite (identify_outdated_comments_found fs self text Hf) in Hout.
  injection Hout as <-. split.
  - intros iss. apply staleness_member.
  - intros iss Hin.
    apply staleness_member in Hin
      as (i & j & line & c & var & _ & _ & Hc & _ & _ & _ & _ & ->).
    pose proof (lookup_lt_Some _ _ _ Hc). split; [reflexivity|]. simpl. lia.
Qed.

Lemma outdated_issue_origin_witness :
  category (1, "outdated", outdated_msg "val") = "outdated"
  /\ 1 <= 1 <= Z.of_nat (length (readlines val_text)).
Proof.
  apply (proj2 (outdated_issue_origin (one_file "a.py" val_text)
                  (mkAnalyzer "a.py" ∅ val_text (Module [] [])) val_text
                  [(1, "outdated", outdated_msg "val")] eq_refl eq_refl)
           (1, "outdated", outdated_msg "val")).
  apply list_elem_of_here.
Defined.

(** X10: the pass matches text, not names: a comment line at most three
    lines away from a line that holds the pattern is reported whenever the
    letters [val] occur in it, inside a longer word or not. *)
Theorem val_comment_flagged (fs : filesystem) (self : analyzer)
    (text : string) (i j : nat) (line c : string) :
  fs (filename self) = Text text ->
  readlines text !! i = Some line -> search_changed line = true ->
  readlines text !! j = Some c -> is_comment c = true ->
  (i <= j + 3)%nat -> (j <= i + 3)%nat ->
  contains (strip c) "val" = true ->
  exists var out,
    identify_outdated_comments fs self = Ok out
    /\ (Z.of_nat j + 1, "outdated", outdated_msg var) ∈ out.
Proof.
  intros Hf Hi Hs Hj Hc H1 H2 Hval.
  destruct (find (flags (strip c)) (findall_words line)) as [var|] eqn:Hfind.
  - exists var. eexists.
    split; [apply identify_outdated_comments_found, Hf|].
    apply staleness_member. exists i, j, line, c, var.
    repeat split; assumption.
  - exfalso.
    pose proof (find_none _ _ Hfind "val"
                  (proj1 (list_elem_of_In _ _) (val_in_changed_line line Hs)))
      as Hv.
    unfold flags in Hv. rewrite Hval in Hv. discriminate.
Qed.

Lemma val_comment_flagged_witness :
  exists var out,
    identify_outdated_comments
      (one_file "a.py"
         ("total = result = val + 5" +:+ nl +:+ "# see the interval" +:+ nl))
      comment_object = Ok out
    /\ (Z.of_nat 1 + 1, "outdated", outdated_msg var) ∈ out.
Proof.
  apply (val_comment_flagged
           (one_file "a.py"
              ("total = result = val + 5" +:+ nl
               +:+ "# see the interval" +:+ nl))
           comment_object
           ("total = result = val + 5" +:+ nl +:+ "# see the interval" +:+ nl)
           0%nat 1%nat ("total = result = val + 5" +:+ nl)
           ("# see the interval" +:+ nl));
    try reflexivity; lia.
Defined.

(** X11: a readable file without comment lines gets no issue from the style
    pass, whatever the style guide holds, and none from the staleness pass;
    a file without the pattern gets none from the staleness pass. *)
Theorem quiet_files (fs : filesystem) (self : analyzer) (text : string) :
  fs (filename self) = Text text ->
  ((forall line, line ∈ readlines text -> is_comment line = false) ->
   enforce_comment_style_consistency fs self = Ok []
   /\ identify_outdated_comments fs self = Ok [])
  /\ ((forall line, line ∈ readlines text -> search_changed line = false) ->
      identify_outdated_comments fs self = Ok []).
Proof.
  intros Hf. rewrite (identify_outdated_comments_found fs self text Hf).
  split.
  - intros Hno. split.
    + rewrite (enforce_cases fs self text Hf).
      assert (He : existsb is_comment (readlines text) = false).
      { apply not_true_is_false. intros He.
        apply existsb_exists in He as (line & Hin & Hc).
        rewrite (Hno line) in Hc; [discriminate|apply list_elem_of_In, Hin]. }
      rewrite He. cbn [andb]. f_equal.
      apply elem_of_nil_inv. intros [[l k] m] Hin.
      assert (Hl : l ∈ issue_lines
                     (flat_map (style_issues (style_guide self))
                        (enumerate 1 (readlines text)))).
      { unfold issue_lines. apply list_elem_of_fmap. eexists. split; [|exact Hin].
        reflexivity. }
      apply style_lines_from in Hl as (n & line & _ & Hline & Hc).
      rewrite (Hno line) in Hc; [discriminate|].
      apply list_elem_of_lookup. eauto.
    + f_equal. apply elem_of_nil_inv. intros iss Hin.
      apply staleness_member in Hin
        as (i & j & line & c & var & _ & _ & Hc & Hcom & _).
      rewrite (Hno c) in Hcom; [discriminate|].
      apply list_elem_of_lookup. eauto.
  - intros Hno. f_equal. apply elem_of_nil_inv. intros iss Hin.
    apply staleness_member in Hin
      as (i & j & line & c & var & Hi & Hs & _).
    rewrite (Hno line) in Hs; [discriminate|].
    apply list_elem_of_lookup. eauto.
Qed.

Lemma quiet_files_witness :
  enforce_comment_style_consistency (one_file "a.py" nested_defs_text)
    (mkAnalyzer "a.py" {[ "min_length" := SStr "10" ]} nested_defs_text
       nested_defs) = Ok []
  /\ identify_outdated_comments (one_file "a.py" nested_defs_text)
       (mkAnalyzer "a.py" {[ "min_length" := SStr "10" ]} nested_defs_text
          nested_defs) = Ok [].
Proof.
  apply (proj1 (quiet_files (one_file "a.py" nested_defs_text)
                  (mkAnalyzer "a.py" {[ "min_length" := SStr "10" ]}
                     nested_defs_text nested_defs)
                  nested_defs_text eq_refl)).
  intros line Hin. vm_compute in Hin.
  repeat (apply elem_of_cons in Hin as [->|Hin]; [reflexivity|]).
  inversion Hin.
Defined.

(** ** Further properties: the command *)

Lemma print_issues_elem (title : string) (issues : list issue) (s : string) :
  s ∈ print_issues title issues
  <-> issues <> [] /\ (s = nl +:+ title \/ exists i, i ∈ issues /\ s = issue_line i).
Proof.
  assert (Hmap : map (fun '(line, kind, message) =>
                        "  Line " +:+ str_of_int line +:+ ": " +:+ kind
                        +:+ " - " +:+ message) issues
                 = map issue_line issues).
  { apply map_ext. intros [[l k] m]. reflexivity. }
  destruct issues as [|i0 issues].
  - simpl. split; [intros H; inversion H|intros [H _]; congruence].
  - unfold print_issues. rewrite Hmap. rewrite elem_of_cons, list_elem_of_fmap.
    split.
    + intros [->|(i & -> & Hi)]; (split; [discriminate|]); eauto.
    + intros [_ [->|(i & Hi & ->)]]; eauto.
Qed.

Lemma issue_line_head (i : issue) :
  exists r, issue_line i = String " " r.
Proof. eexists. reflexivity. Qed.






(** X14: the style guide is loaded before the file to analyse is opened: a
    style guide file that is missing, cannot be read or is not a JSON
    document ends the run with status 1 and nothing printed.  Without a
    style guide path, or with the empty path, the run is that of [main] with
    no style guide, and no section of style violations is printed. *)
Theorem style_guide_loading (ast_parse : string -> option node)
    (ast_dump : node -> result string)
    (json_load : string -> option (gmap string sg_value))
    (fs : filesystem) (args : arguments) :
  (forall path,
      arg_style_guide args = Some path -> path <> EmptyString ->
      (forall text, fs path = Text text -> json_load text = None) ->
      main_args ast_parse ast_dump json_load fs args = ([], 1))
  /\ (arg_style_guide args = None
      \/ arg_style_guide args = Some EmptyString ->
      main_args ast_parse ast_dump json_load fs args
      = main ast_parse ast_dump fs (arg_filename args) None
      /\ nl +:+ "Style Violations:"
           ∉ (main_args ast_parse ast_dump json_load fs args).1).
Proof.
  split.
  - intros path Hp Hne Hbad. unfold main_args. rewrite Hp.
    destruct path; [congruence|]. cbn [truthy].
    destruct (fs (String a path)) as [| |text] eqn:Hf; try reflexivity.
    rewrite (Hbad text eq_refl). reflexivity.
  - intros Hno.
    assert (Hrun : main_args ast_parse ast_dump json_load fs args
                   = main ast_parse ast_dump fs (arg_filename args) None).
    { unfold main_args. destruct Hno as [-> | ->]; reflexivity. }
    split; [exact Hrun|]. rewrite Hrun.
    destruct (main ast_parse ast_dump fs (arg_filename args) None)
      as [out code] eqn:Hmain.
    cbn [fst]. unfold main in Hmain.
    destruct (__init__ ast_parse fs (arg_filename args) None) as [self|e]
      eqn:Hi; cbn [bind] in Hmain;
      [|injection Hmain as <- _; apply not_elem_of_nil].
    assert (Hs : enforce_comment_style_consistency fs self = Ok []).
    { unfold __init__ in Hi.
      destruct (open_read fs (arg_filename args)); cbn [bind] in Hi;
        [|discriminate].
      destruct (ast_parse a); [|discriminate]. injection Hi as <-.
      reflexivity. }
    destruct (check_missing_comments ast_dump fs self) as [mc|e];
      cbn [bind] in Hmain;
      [|injection Hmain as <- _; apply not_elem_of_nil].
    rewrite Hs in Hmain. cbn [bind] in Hmain.
    destruct (identify_outdated_comments fs self) as [oc|e];
      cbn [bind] in Hmain;
      [|injection Hmain as <- _; apply not_elem_of_nil].
    injection Hmain as <- _. cbn [print_issues app].
    rewrite !elem_of_app. intros [Hin|[Hin|Hin]].
    + apply print_issues_elem in Hin as [_ [Hin|(i & _ & Hin)]];
        [discriminate|].
      destruct (issue_line_head i) as [r Hr]. rewrite Hr in Hin.
      discriminate.
    + apply print_issues_elem in Hin as [_ [Hin|(i & _ & Hin)]];
        [discriminate|].
      destruct (issue_line_head i) as [r Hr]. rewrite Hr in Hin.
      discriminate.
    + destruct mc; [|inversion Hin]. destruct oc; [|inversion Hin].
      apply list_elem_of_singleton in Hin. discriminate.
Qed.

Lemma style_guide_loading_witness :
  main_args sample_parse demo_dump sample_json
    (one_file "a.py" short_comment_text)
    (mkArguments "a.py" (Some "style.json") false) = ([], 1)
  /\ main_args sample_parse demo_dump sample_json
       (one_file "a.py" short_comment_text)
       (mkArguments "a.py" (Some EmptyString) true)
     = main sample_parse demo_dump (one_file "a.py" short_comment_text)
         "a.py" None.
Proof.
  split.
  - apply (proj1 (style_guide_loading sample_parse demo_dump sample_json
                    (one_file "a.py" short_comment_text)
                    (mkArguments "a.py" (Some "style.json") false))
             "style.json"); [reflexivity|discriminate|].
    intros text Hf. discriminate.
  - apply (proj2 (style_guide_loading sample_parse demo_dump sample_json
                    (one_file "a.py" short_comment_text)
                    (mkArguments "a.py" (Some EmptyString) true))).
    right. reflexivity.
Defined.

(** ** Further properties: complex conditionals in the list returned *)



